(** * Patient Portal backend: error envelope and data model

    Shallow embedding of
      - [apps/backend-api/app/main.py]: the three exception handlers
        registered on the FastAPI application, and
      - [apps/backend-api/app/models/patient.py]: the seven SQLAlchemy
        declarative models.

    The handlers are pure up to the clock ([time.time()]) and the logger:
    the clock reading is an argument, the log records are returned next to
    the response.  The models are declarations; their operational meaning
    is the unit-of-work flush of the object-relational mapper (INSERT with
    column defaults and server defaults, UPDATE with [onupdate]) against
    the constraints the columns declare (NOT NULL, UNIQUE, FOREIGN KEY,
    VARCHAR length). *)

From stdpp Require Import gmap strings list fin_maps.
From Stdlib Require Import ZArith Floats.PrimFloat.

Local Set Warnings "-register-all".
Local Open Scope Z_scope.
Local Open Scope string_scope.

(* ===================================================================== *)
(** ** JSON values, as [JSONResponse] serialises Python objects           *)
(* ===================================================================== *)

Inductive json : Type :=
| JNull
| JBool (b : bool)
| JInt (n : Z)
| JFloat (f : float)
| JString (s : string)
| JList (l : list json)
| JDict (kvs : list (string * json)).

(** [d.get(k)] on a dict literal: first binding of the key. *)
Fixpoint assoc_get {A : Type} (k : string) (kvs : list (string * A)) : option A :=
  match kvs with
  | [] => None
  | (k', v) :: rest => if String.eqb k k' then Some v else assoc_get k rest
  end.

Definition json_get (k : string) (j : json) : option json :=
  match j with
  | JDict kvs => assoc_get k kvs
  | _ => None
  end.

Definition json_keys (j : json) : option (list string) :=
  match j with
  | JDict kvs => Some (map fst kvs)
  | _ => None
  end.

(* ===================================================================== *)
(** ** [app/main.py]                                                      *)
(* ===================================================================== *)

Module Main.

(** ASCII lower-casing, as [Headers.get] applies to the looked-up name. *)
Definition lower_ascii (c : Ascii.ascii) : Ascii.ascii :=
  let n := Ascii.nat_of_ascii c in
  if (Nat.leb 65 n && Nat.leb n 90)%bool then Ascii.ascii_of_nat (n + 32) else c.

Fixpoint lower (s : string) : string :=
  match s with
  | EmptyString => EmptyString
  | String c rest => String (lower_ascii c) (lower rest)
  end.

(** The part of a Starlette [Request] the handlers read.  [headers] is the
    raw header list, whose names the server hands over in lower case. *)
Record Request : Type := mkRequest {
  url : string;
  headers : list (string * string)
}.

(** [request.headers.get(name, default)] *)
Definition headers_get (req : Request) (name default : string) : string :=
  match assoc_get (lower name) (headers req) with
  | Some v => v
  | None => default
  end.

(** [app.core.exceptions.PatientPortalException]: main.py imports the
    class; these are the four attributes the handler reads from it. *)
Record PatientPortalException : Type := mkPatientPortalException {
  status_code : Z;
  error_code : string;
  message : string;
  details : json
}.

(** [fastapi.exceptions.RequestValidationError]: [errors()] is a list of
    JSON-serialisable error items. *)
Record RequestValidationError : Type := mkRequestValidationError {
  errors : list json
}.

(** Any other Python exception, seen through what the general handler
    reads: [type(exc).__name__] and [str(exc)]. *)
Record Exception : Type := mkException {
  exc_type_name : string;
  exc_str : string
}.

(** What a route can raise, by the class the handler registry keys on. *)
Inductive raised : Type :=
| RaisedPortal (exc : PatientPortalException)
| RaisedValidation (exc : RequestValidationError)
| RaisedOther (exc : Exception).

Record JSONResponse : Type := mkJSONResponse {
  resp_status_code : Z;
  content : json
}.

(** One structlog call: level, event and keyword arguments. *)
Inductive log_level : Type := LogInfo | LogWarning | LogError.

Record log_record : Type := mkLog {
  log_lvl : log_level;
  log_event : string;
  log_kwargs : list (string * json)
}.

(** [fastapi.status] constants used by the handlers. *)
Definition HTTP_422_UNPROCESSABLE_ENTITY : Z := 422.
Definition HTTP_500_INTERNAL_SERVER_ERROR : Z := 500.

(** The [meta] member every handler builds the same way. *)
Definition meta (request : Request) (now : float) : json :=
  JDict [("timestamp", JFloat now);
         ("request_id", JString (headers_get request "X-Request-ID" "unknown"))].

(** [patient_portal_exception_handler] (main.py, lines 165-190). *)
Definition patient_portal_exception_handler
    (request : Request) (now : float) (exc : PatientPortalException)
  : list log_record * JSONResponse :=
  ([mkLog LogError "Application exception"
      [("error_code", JString (error_code exc));
       ("message", JString (message exc));
       ("details", details exc);
       ("url", JString (url request))]],
   mkJSONResponse (status_code exc)
     (JDict [("success", JBool false);
             ("error", JDict [("code", JString (error_code exc));
                              ("message", JString (message exc));
                              ("details", details exc)]);
             ("meta", meta request now)])).

(** [validation_exception_handler] (main.py, lines 193-216). *)
Definition validation_exception_handler
    (request : Request) (now : float) (exc : RequestValidationError)
  : list log_record * JSONResponse :=
  ([mkLog LogWarning "Validation error"
      [("errors", JList (errors exc));
       ("url", JString (url request))]],
   mkJSONResponse HTTP_422_UNPROCESSABLE_ENTITY
     (JDict [("success", JBool false);
             ("error", JDict [("code", JString "VALIDATION_ERROR");
                              ("message", JString "Request validation failed");
                              ("details", JList (errors exc))]);
             ("meta", meta request now)])).

(** [general_exception_handler] (main.py, lines 219-244). *)
Definition general_exception_handler
    (request : Request) (now : float) (exc : Exception)
  : list log_record * JSONResponse :=
  ([mkLog LogError "Unexpected error"
      [("error", JString (exc_str exc));
       ("error_type", JString (exc_type_name exc));
       ("url", JString (url request));
       ("exc_info", JBool true)]],
   mkJSONResponse HTTP_500_INTERNAL_SERVER_ERROR
     (JDict [("success", JBool false);
             ("error", JDict [("code", JString "INTERNAL_SERVER_ERROR");
                              ("message", JString "An unexpected error occurred");
                              ("details", JNull)]);
             ("meta", meta request now)])).

(** The registry built by the three [@app.exception_handler] decorators:
    the handler of the most specific registered class runs. *)
Definition handle_exception (request : Request) (now : float) (e : raised)
  : list log_record * JSONResponse :=
  match e with
  | RaisedPortal exc => patient_portal_exception_handler request now exc
  | RaisedValidation exc => validation_exception_handler request now exc
  | RaisedOther exc => general_exception_handler request now exc
  end.

(** The body of [health_check], a success response (main.py, lines 248-261);
    [environment] is [settings.ENVIRONMENT]. *)
Definition health_check (environment : string) (now : float) : json :=
  JDict [("success", JBool true);
         ("data", JDict [("status", JString "healthy");
                         ("version", JString "1.0.0");
                         ("environment", JString environment)]);
         ("meta", JDict [("timestamp", JFloat now)])].

(** The uniform error envelope:
    [{success, error:{code, message, details}, meta:{timestamp, request_id}}]
    with exactly these members and [success] false. *)
Definition is_error_envelope (body : json) : Prop :=
  json_keys body = Some ["success"; "error"; "meta"] /\
  json_get "success" body = Some (JBool false) /\
  (exists err, json_get "error" body = Some err /\
               json_keys err = Some ["code"; "message"; "details"]) /\
  (exists m, json_get "meta" body = Some m /\
             json_keys m = Some ["timestamp"; "request_id"]).


End Main.

(* ===================================================================== *)
(** ** [app/models/patient.py]: the declarations                          *)
(* ===================================================================== *)

Module Models.

(** Column types, as imported from [sqlalchemy]. *)
Inductive sqltype : Type :=
| String_ (length : nat)
| Text
| Integer
| Decimal (precision scale : nat)
| Boolean
| Date
| DateTime (timezone : bool)
| JSON
| UUID (as_uuid : bool).

(** Values of attributes and of stored cells.  [VNull] is Python's [None]
    and SQL's NULL.  A timestamp with time zone is a count of microseconds,
    a date a count of days, a decimal its unscaled integer, a UUID its
    128-bit number. *)
Inductive value : Type :=
| VNull
| VStr (s : string)
| VInt (n : Z)
| VDec (unscaled : Z)
| VBool (b : bool)
| VDate (d : Z)
| VTime (t : Z)
| VJson (j : json)
| VUuid (u : N).

(** What a [default=], [server_default=] or [onupdate=] argument denotes. *)
Inductive generator : Type :=
| uuid_uuid4
| func_now
| Const (v : value).

(** Keyword arguments of [Column(...)]. *)
Inductive kwarg : Type :=
| primary_key (b : bool)
| nullable (b : bool)
| unique (b : bool)
| index (b : bool)
| default (g : generator)
| server_default (g : generator)
| onupdate (g : generator).

(** [ForeignKey("table.column")] *)
Record ForeignKey : Type := mkForeignKey {
  fk_table : string;
  fk_column : string
}.

Record Column : Type := mkColumn {
  col_type : sqltype;
  col_foreign_key : option ForeignKey;
  col_kwargs : list kwarg
}.

Definition Column_ (t : sqltype) (kws : list kwarg) : Column :=
  mkColumn t None kws.

Definition ColumnFK (t : sqltype) (table column : string) (kws : list kwarg) : Column :=
  mkColumn t (Some (mkForeignKey table column)) kws.

(** A declarative class: [__tablename__] and its columns in source order. *)
Record Model : Type := mkModel {
  tablename : string;
  columns : list (string * Column)
}.

Definition Patient : Model := mkModel "patients"
  [("id", Column_ (UUID true) [primary_key true; default uuid_uuid4]);
   ("first_name", Column_ (String_ 100) [nullable false]);
   ("last_name", Column_ (String_ 100) [nullable false]);
   ("date_of_birth", Column_ Date [nullable false]);
   ("email", Column_ (String_ 255) [unique true; nullable false; index true]);
   ("phone", Column_ (String_ 20) []);
   ("address", Column_ JSON []);
   ("emergency_contact", Column_ JSON []);
   ("medical_record_number", Column_ (String_ 50) [unique true; nullable false; index true]);
   ("insurance_info", Column_ JSON []);
   ("preferred_language", Column_ (String_ 10) [default (Const (VStr "en"))]);
   ("is_active", Column_ Boolean [default (Const (VBool true))]);
   ("created_at", Column_ (DateTime true) [server_default func_now]);
   ("updated_at", Column_ (DateTime true) [onupdate func_now])].

Definition Provider : Model := mkModel "providers"
  [("id", Column_ (UUID true) [primary_key true; default uuid_uuid4]);
   ("first_name", Column_ (String_ 100) [nullable false]);
   ("last_name", Column_ (String_ 100) [nullable false]);
   ("title", Column_ (String_ 50) []);
   ("specialty", Column_ (String_ 100) []);
   ("department", Column_ (String_ 100) []);
   ("email", Column_ (String_ 255) [unique true; nullable false]);
   ("phone", Column_ (String_ 20) []);
   ("office_location", Column_ (String_ 200) []);
   ("bio", Column_ Text []);
   ("is_active", Column_ Boolean [default (Const (VBool true))]);
   ("created_at", Column_ (DateTime true) [server_default func_now]);
   ("updated_at", Column_ (DateTime true) [onupdate func_now])].

Definition Appointment : Model := mkModel "appointments"
  [("id", Column_ (UUID true) [primary_key true; default uuid_uuid4]);
   ("patient_id", ColumnFK (UUID true) "patients" "id" [nullable false]);
   ("provider_id", ColumnFK (UUID true) "providers" "id" [nullable false]);
   ("appointment_date", Column_ (DateTime true) [nullable false]);
   ("duration_minutes", Column_ Integer [default (Const (VInt 30))]);
   ("appointment_type", Column_ (String_ 50) []);
   ("status", Column_ (String_ 20) [default (Const (VStr "scheduled"))]);
   ("location", Column_ (String_ 200) []);
   ("reason", Column_ Text []);
   ("notes", Column_ Text []);
   ("instructions", Column_ Text []);
   ("created_at", Column_ (DateTime true) [server_default func_now]);
   ("updated_at", Column_ (DateTime true) [onupdate func_now])].

Definition LabResult : Model := mkModel "lab_results"
  [("id", Column_ (UUID true) [primary_key true; default uuid_uuid4]);
   ("patient_id", ColumnFK (UUID true) "patients" "id" [nullable false]);
   ("test_name", Column_ (String_ 200) [nullable false]);
   ("test_code", Column_ (String_ 50) []);
   ("category", Column_ (String_ 100) []);
   ("result_value", Column_ (Decimal 10 3) []);
   ("result_text", Column_ Text []);
   ("result_unit", Column_ (String_ 20) []);
   ("reference_range", Column_ (String_ 100) []);
   ("status", Column_ (String_ 20) []);
   ("flags", Column_ (String_ 10) []);
   ("collected_date", Column_ (DateTime true) []);
   ("resulted_date", Column_ (DateTime true) []);
   ("provider_notes", Column_ Text []);
   ("patient_explanation", Column_ Text []);
   ("is_critical", Column_ Boolean [default (Const (VBool false))]);
   ("created_at", Column_ (DateTime true) [server_default func_now]);
   ("updated_at", Column_ (DateTime true) [onupdate func_now])].

Definition Medication : Model := mkModel "medications"
  [("id", Column_ (UUID true) [primary_key true; default uuid_uuid4]);
   ("patient_id", ColumnFK (UUID true) "patients" "id" [nullable false]);
   ("prescriber_id", ColumnFK (UUID true) "providers" "id" [nullable false]);
   ("medication_name", Column_ (String_ 200) [nullable false]);
   ("generic_name", Column_ (String_ 200) []);
   ("dosage", Column_ (String_ 100) []);
   ("strength", Column_ (String_ 50) []);
   ("form", Column_ (String_ 50) []);
   ("frequency", Column_ (String_ 100) []);
   ("route", Column_ (String_ 50) []);
   ("instructions", Column_ Text []);
   ("indication", Column_ (String_ 200) []);
   ("quantity", Column_ Integer []);
   ("refills_remaining", Column_ Integer [default (Const (VInt 0))]);
   ("prescribed_date", Column_ Date [nullable false]);
   ("start_date", Column_ Date []);
   ("end_date", Column_ Date []);
   ("status", Column_ (String_ 20) [default (Const (VStr "active"))]);
   ("side_effects", Column_ JSON []);
   ("interactions", Column_ JSON []);
   ("created_at", Column_ (DateTime true) [server_default func_now]);
   ("updated_at", Column_ (DateTime true) [onupdate func_now])].

Definition Message : Model := mkModel "messages"
  [("id", Column_ (UUID true) [primary_key true; default uuid_uuid4]);
   ("patient_id", ColumnFK (UUID true) "patients" "id" [nullable false]);
   ("provider_id", ColumnFK (UUID true) "providers" "id" [nullable false]);
   ("thread_id", Column_ (UUID true) []);
   ("subject", Column_ (String_ 200) [nullable false]);
   ("message_body", Column_ Text [nullable false]);
   ("sender_type", Column_ (String_ 20) [nullable false]);
   ("message_type", Column_ (String_ 50) [default (Const (VStr "general"))]);
   ("priority", Column_ (String_ 20) [default (Const (VStr "normal"))]);
   ("is_read", Column_ Boolean [default (Const (VBool false))]);
   ("read_at", Column_ (DateTime true) []);
   ("attachments", Column_ JSON []);
   ("created_at", Column_ (DateTime true) [server_default func_now]);
   ("updated_at", Column_ (DateTime true) [onupdate func_now])].

Definition HealthAlert : Model := mkModel "health_alerts"
  [("id", Column_ (UUID true) [primary_key true; default uuid_uuid4]);
   ("patient_id", ColumnFK (UUID true) "patients" "id" [nullable false]);
   ("alert_type", Column_ (String_ 50) [nullable false]);
   ("severity", Column_ (String_ 20) [default (Const (VStr "info"))]);
   ("title", Column_ (String_ 200) [nullable false]);
   ("message", Column_ Text [nullable false]);
   ("action_required", Column_ Boolean [default (Const (VBool false))]);
   ("action_url", Column_ (String_ 500) []);
   ("is_read", Column_ Boolean [default (Const (VBool false))]);
   ("read_at", Column_ (DateTime true) []);
   ("expires_at", Column_ (DateTime true) []);
   ("created_at", Column_ (DateTime true) [server_default func_now])].

(** [Base.metadata]: every table of the module, in declaration order. *)
Definition metadata : list Model :=
  [Patient; Provider; Appointment; LabResult; Medication; Message; HealthAlert].

(** *** Reading a [Column] declaration *)

Fixpoint kwarg_find {A : Type} (sel : kwarg -> option A) (kws : list kwarg) : option A :=
  match kws with
  | [] => None
  | k :: rest =>
      match sel k with
      | Some a => Some a
      | None => kwarg_find sel rest
      end
  end.

Definition col_primary_key (c : Column) : bool :=
  match kwarg_find (fun k => match k with primary_key b => Some b | _ => None end)
                   (col_kwargs c) with
  | Some b => b
  | None => false
  end.

(** [nullable] is true unless given, except on a primary key. *)
Definition col_nullable (c : Column) : bool :=
  match kwarg_find (fun k => match k with nullable b => Some b | _ => None end)
                   (col_kwargs c) with
  | Some b => b
  | None => negb (col_primary_key c)
  end.

Definition col_unique (c : Column) : bool :=
  match kwarg_find (fun k => match k with unique b => Some b | _ => None end)
                   (col_kwargs c) with
  | Some b => b
  | None => false
  end.

Definition col_default (c : Column) : option generator :=
  kwarg_find (fun k => match k with default g => Some g | _ => None end) (col_kwargs c).

Definition col_server_default (c : Column) : option generator :=
  kwarg_find (fun k => match k with server_default g => Some g | _ => None end)
             (col_kwargs c).

Definition col_onupdate (c : Column) : option generator :=
  kwarg_find (fun k => match k with onupdate g => Some g | _ => None end) (col_kwargs c).

Definition column (m : Model) (name : string) : option Column :=
  assoc_get name (columns m).

Definition column_names (m : Model) : list string := (columns m).*1.

End Models.

(* ===================================================================== *)
(** ** The unit of work over the declared tables                          *)
(* ===================================================================== *)

(** What the mapper and the database do with the declarations above when
    an instance is added and flushed ([insert]) or a statement
    [UPDATE t SET ... WHERE id = ...] is executed ([update]).  A failed
    statement raises and its transaction is rolled back. *)

Module Session.
Import Models.

(** A mapped instance / a stored row: attribute name to value.  A table
    maps the primary key to its row; the database maps [__tablename__] to
    its table. *)
Abbreviation row := (gmap string value).
Abbreviation table := (gmap N row).
Abbreviation store := (gmap string table).

(** The two sources of values that are not the caller's: the database
    clock read by [func.now()] and the UUID drawn by [uuid.uuid4]. *)
Record Env : Type := mkEnv {
  now : Z;
  uuid4 : N
}.

Inductive db_error : Type :=
| TypeError                          (* invalid keyword argument for the class *)
| DataError (col : string)           (* value out of the column's type *)
| NotNullViolation (col : string)
| UniqueViolation (col : string)
| ForeignKeyViolation (col : string)
| NoResultFound.

Definition get_table (s : store) (t : string) : table :=
  match s !! t with
  | Some tb => tb
  | None => ∅
  end.

Definition rows (tb : table) : list row := (map_to_list tb).*2.

Definition cell (r : row) (name : string) : value :=
  match r !! name with
  | Some v => v
  | None => VNull
  end.

Definition is_null (v : value) : bool :=
  match v with
  | VNull => true
  | _ => false
  end.

(** SQL equality as unique indexes and foreign keys use it: NULL equals
    nothing, and the [json] type has no equality operator. *)
Definition value_eqb (v w : value) : bool :=
  match v, w with
  | VStr a, VStr b => String.eqb a b
  | VInt a, VInt b => Z.eqb a b
  | VDec a, VDec b => Z.eqb a b
  | VBool a, VBool b => Bool.eqb a b
  | VDate a, VDate b => Z.eqb a b
  | VTime a, VTime b => Z.eqb a b
  | VUuid a, VUuid b => N.eqb a b
  | _, _ => false
  end.

(** Does a value fit the column type?  NULL fits every type; nullability
    is a separate constraint.  A string over the length of its column does
    not fit; the database's cutting of excess characters that are all
    spaces is left out. *)
Definition has_type (t : sqltype) (v : value) : bool :=
  match v, t with
  | VNull, _ => true
  | VStr s, String_ n => Nat.leb (String.length s) n
  | VStr _, Text => true
  | VInt n, Integer => ((-2147483648 <=? n) && (n <=? 2147483647))%Z
  | VDec q, Decimal p _ => (Z.abs q <? 10 ^ Z.of_nat p)%Z
  | VBool _, Boolean => true
  | VDate _, Date => true
  | VTime _, DateTime _ => true
  | VJson _, JSON => true
  | VUuid u, UUID _ => (u <? 2 ^ 128)%N
  | _, _ => false
  end.

Definition run (g : generator) (env : Env) : value :=
  match g with
  | uuid_uuid4 => VUuid (uuid4 env)
  | func_now => VTime (now env)
  | Const v => v
  end.

(** A [None] attribute is sent as JSON null to a JSON column. *)
Definition evaluates_none (t : sqltype) : bool :=
  match t with
  | JSON => true
  | _ => false
  end.

(** The value a column gets when the INSERT leaves it out: the Python-side
    [default], else the [server_default], else NULL. *)
Definition insert_default (env : Env) (c : Column) : value :=
  match col_default c with
  | Some g => run g env
  | None =>
      match col_server_default c with
      | Some g => run g env
      | None => VNull
      end
  end.

(** INSERT: an attribute that was not given, or given as [None], is left
    out of the statement. *)
Definition insert_value (env : Env) (kw : row) (name : string) (c : Column) : value :=
  match kw !! name with
  | Some VNull =>
      if evaluates_none (col_type c) then VJson JNull else insert_default env c
  | Some v => v
  | None => insert_default env c
  end.

(** UPDATE: the value the SET clause gives a column, if it names it: the
    given value, or the [onupdate] value of a column the caller left out. *)
Definition set_value (env : Env) (kw : row) (name : string) (c : Column) : option value :=
  match kw !! name with
  | Some VNull => Some (if evaluates_none (col_type c) then VJson JNull else VNull)
  | Some v => Some v
  | None =>
      match col_onupdate c with
      | Some g => Some (run g env)
      | None => None
      end
  end.

(** A column outside the SET clause keeps its value. *)
Definition update_value (env : Env) (old kw : row) (name : string) (c : Column) : value :=
  match set_value env kw name c with
  | Some v => v
  | None => cell old name
  end.

Definition build (f : string -> Column -> value) (m : Model) : row :=
  list_to_map (map (fun nc => (nc.1, f nc.1 nc.2)) (columns m)).

(** Every keyword names a column of the class. *)
Definition valid_keywords (m : Model) (kw : row) : bool :=
  forallb (fun k => bool_decide (k ∈ column_names m)) (map_to_list kw).*1.

Fixpoint first_error {A : Type} (chk : A -> option db_error) (l : list A)
  : option db_error :=
  match l with
  | [] => None
  | x :: rest =>
      match chk x with
      | Some e => Some e
      | None => first_error chk rest
      end
  end.

(** The constraint checks, each over the columns the statement writes and
    in the order the database applies them. *)
Section Checks.
Variable written : string -> Column -> bool.
Variable m : Model.
Variable r : row.

Definition check_types : option db_error :=
  first_error (fun nc =>
    if written nc.1 nc.2 && negb (has_type (col_type nc.2) (cell r nc.1))
    then Some (DataError nc.1) else None) (columns m).

Definition check_not_null : option db_error :=
  first_error (fun nc =>
    if written nc.1 nc.2 && negb (col_nullable nc.2) && is_null (cell r nc.1)
    then Some (NotNullViolation nc.1) else None) (columns m).

Definition check_unique (others : table) : option db_error :=
  first_error (fun nc =>
    if written nc.1 nc.2 && (col_primary_key nc.2 || col_unique nc.2)
       && existsb (fun r' => value_eqb (cell r' nc.1) (cell r nc.1)) (rows others)
    then Some (UniqueViolation nc.1) else None) (columns m).

Definition check_foreign_keys (s : store) : option db_error :=
  first_error (fun nc =>
    match col_foreign_key nc.2 with
    | Some fk =>
        if written nc.1 nc.2 && negb (is_null (cell r nc.1))
           && negb (existsb (fun r' => value_eqb (cell r' (fk_column fk)) (cell r nc.1))
                            (rows (get_table s (fk_table fk))))
        then Some (ForeignKeyViolation nc.1) else None
    | None => None
    end) (columns m).
End Checks.

(** Rows of another table still pointing at a value this UPDATE replaces
    (foreign keys are declared without ON UPDATE action). *)
Definition referencing (s : store) (t name : string) (v : value) : bool :=
  existsb (fun m' =>
    existsb (fun nc =>
      match col_foreign_key nc.2 with
      | Some fk =>
          String.eqb (fk_table fk) t && String.eqb (fk_column fk) name
          && existsb (fun r' => value_eqb (cell r' nc.1) v) (rows (get_table s (tablename m')))
      | None => false
      end) (columns m')) metadata.

Definition check_referenced (m : Model) (s : store) (old r : row) : option db_error :=
  first_error (fun nc =>
    if negb (value_eqb (cell old nc.1) (cell r nc.1))
       && referencing s (tablename m) nc.1 (cell old nc.1)
    then Some (ForeignKeyViolation nc.1) else None) (columns m).

(** The primary key of a row of [m]. *)
Definition identity (m : Model) (r : row) : option N :=
  match List.find (fun nc => col_primary_key nc.2) (columns m) with
  | Some nc =>
      match cell r nc.1 with
      | VUuid u => Some u
      | _ => None
      end
  | None => None
  end.

Definition ensure {A : Type} (e : option db_error) (k : db_error + A) : db_error + A :=
  match e with
  | Some x => inl x
  | None => k
  end.

Definition every_column (_ : string) (_ : Column) : bool := true.

(** [session.add(M(...)); session.flush()] with keyword arguments [kw] *)
Definition insert (m : Model) (s : store) (env : Env) (kw : row)
  : db_error + (store * row) :=
  if negb (valid_keywords m kw) then inl TypeError else
  let r := build (insert_value env kw) m in
  let tb := get_table s (tablename m) in
  ensure (check_types every_column m r) $
  ensure (check_not_null every_column m r) $
  ensure (check_unique every_column m r tb) $
  ensure (check_foreign_keys every_column m r s) $
  match identity m r with
  | Some u => inr (<[tablename m := <[u := r]> tb]> s, r)
  | None => inl (NotNullViolation "id")
  end.

(** The columns an UPDATE with keyword arguments [kw] writes. *)
Definition set_clause (env : Env) (kw : row) (name : string) (c : Column) : bool :=
  match set_value env kw name c with
  | Some _ => true
  | None => false
  end.

(** [UPDATE m SET kw WHERE id = :id], through the mapper. *)
Definition update (m : Model) (s : store) (env : Env) (id : N) (kw : row)
  : db_error + (store * row) :=
  if negb (valid_keywords m kw) then inl TypeError else
  let tb := get_table s (tablename m) in
  match tb !! id with
  | None => inl NoResultFound
  | Some old =>
      let r := build (update_value env old kw) m in
      let others := delete id tb in
      ensure (check_types (set_clause env kw) m r) $
      ensure (check_not_null (set_clause env kw) m r) $
      ensure (check_unique (set_clause env kw) m r others) $
      ensure (check_foreign_keys (set_clause env kw) m r s) $
      ensure (check_referenced m s old r) $
      match identity m r with
      | Some u => inr (<[tablename m := <[u := r]> others]> s, r)
      | None => inl (NotNullViolation "id")
      end
  end.

(** The keyword arguments make a well-formed instance of [m]: they name
    columns, carry values of the columns' types and leave no NOT NULL
    column without a value. *)
Definition well_formed (m : Model) (env : Env) (kw : row) : bool :=
  valid_keywords m kw
  && match check_types every_column m (build (insert_value env kw) m) with
     | None => true
     | Some _ => false
     end
  && match check_not_null every_column m (build (insert_value env kw) m) with
     | None => true
     | Some _ => false
     end.

(** Some foreign key of the schema points at column [name] of table [t]. *)
Definition targeted (t name : string) : bool :=
  existsb (fun m' =>
    existsb (fun nc =>
      match col_foreign_key nc.2 with
      | Some fk => String.eqb (fk_table fk) t && String.eqb (fk_column fk) name
      | None => false
      end) (columns m')) metadata.

(** An UPDATE whose SET clause stays clear of keys: every column it writes
    gets a value of the column's type, non-null where required, and is
    neither a primary key, nor unique, nor a foreign key, nor the target
    of one. *)
Definition plain_set (m : Model) (env : Env) (kw : row) : bool :=
  forallb (fun nc =>
    match set_value env kw nc.1 nc.2 with
    | None => true
    | Some v =>
        has_type (col_type nc.2) v
        && (col_nullable nc.2 || negb (is_null v))
        && negb (col_primary_key nc.2 || col_unique nc.2)
        && match col_foreign_key nc.2 with None => true | Some _ => false end
        && negb (targeted (tablename m) nc.1)
    end) (columns m).

(** [session.get(M, id)] *)
Definition get (m : Model) (s : store) (id : N) : option row :=
  get_table s (tablename m) !! id.

End Session.

(* ===================================================================== *)
(** ** The store operations of the specification                          *)
(* ===================================================================== *)

Module Store.
Import Models Session.

(** Modelled from the spec: the store's error classes (sections 4.1 and 7);
    [app.core.exceptions], the module that declares the application's
    exceptions, is missing. *)
Inductive store_error : Type :=
| ValidationError
| ConflictError
| NotFoundError.

(** Modelled from the spec: the contracts of section 4.1.  A uniqueness
    violation is a [ConflictError], an unknown id a [NotFoundError], a
    missing required field, a malformed value or a dangling reference a
    [ValidationError]. *)
Definition store_error_of (e : db_error) : store_error :=
  match e with
  | UniqueViolation _ => ConflictError
  | NoResultFound => NotFoundError
  | TypeError | DataError _ | NotNullViolation _ | ForeignKeyViolation _ => ValidationError
  end.

(** Modelled from the spec: the create operation of section 4.1 (the
    routes of [app.api.v1] that perform it are missing), as the INSERT of
    the declared model inside one transaction: on failure nothing is
    written. *)
Definition create (m : Model) (s : store) (env : Env) (kw : row)
  : store * (store_error + row) :=
  match insert m s env kw with
  | inr (s', r) => (s', inr r)
  | inl e => (s, inl (store_error_of e))
  end.

(** Modelled from the spec: the update operation of section 4.1, a partial
    field merge, as the UPDATE of the declared model inside one
    transaction. *)
Definition update (m : Model) (s : store) (env : Env) (id : N) (kw : row)
  : store * (store_error + row) :=
  match Session.update m s env id kw with
  | inr (s', r) => (s', inr r)
  | inl e => (s, inl (store_error_of e))
  end.

(** Modelled from the spec: the mark-read transition of section 4.1 for
    [Message] and [HealthAlert], the update that raises the read flag and
    stamps the read time from the store's clock. *)
Definition mark_read (m : Model) (s : store) (env : Env) (id : N)
  : store * (store_error + row) :=
  update m s env id (<["is_read" := VBool true]> {["read_at" := VTime (now env)]}).

(** Modelled from the spec: the status transition of section 4.1.  The
    spec records (sections 4.1 and 9) that the source keeps the status in
    a plain string column and enforces no transition table: the transition
    is the update of that one column. *)
Definition transition (m : Model) (s : store) (env : Env) (id : N) (status : string)
  : store * (store_error + row) :=
  update m s env id {["status" := VStr status]}.

End Store.

(* ===================================================================== *)
(** ** The invariants of the data model, as predicates on rows            *)
(* ===================================================================== *)

Module Invariants.
Import Models Session.

(** [Message], [HealthAlert]: read flag set iff a read timestamp is present. *)
Definition read_consistent (r : row) : Prop :=
  cell r "is_read" = VBool true <-> cell r "read_at" <> VNull.

(** [LabResult]: a critical result has status abnormal or critical. *)
Definition critical_consistent (r : row) : Prop :=
  cell r "is_critical" = VBool true ->
  cell r "status" = VStr "abnormal" \/ cell r "status" = VStr "critical".

(** [Appointment]: the duration is a positive number of minutes. *)
Definition positive_duration (r : row) : Prop :=
  exists d, cell r "duration_minutes" = VInt d /\ 0 < d.

(** A row sits in its table under its own primary key. *)
Definition stored_at (m : Model) (s : store) (id : N) (r : row) : Prop :=
  get m s id = Some r /\ identity m r = Some id.

End Invariants.

(* ===================================================================== *)
(** ** A small clinic, built with the operations above                    *)
(* ===================================================================== *)

Module Sample.
Import Models Session.

Definition after (res : db_error + (store * row)) (s : store) : store :=
  match res with
  | inr (s', _) => s'
  | inl _ => s
  end.

Definition row_of (res : db_error + (store * row)) : row :=
  match res with
  | inr (_, r) => r
  | inl _ => ∅
  end.

Definition succeeded {A B : Type} (res : A + B) : bool :=
  match res with
  | inr _ => true
  | inl _ => false
  end.

Definition patient_kw : row :=
  list_to_map [("first_name", VStr "Ada"); ("last_name", VStr "Byron");
               ("date_of_birth", VDate 4000); ("email", VStr "a@x.com");
               ("medical_record_number", VStr "MRN-1")].

Definition provider_kw : row :=
  list_to_map [("first_name", VStr "Grace"); ("last_name", VStr "Hopper");
               ("title", VStr "Dr."); ("email", VStr "b@x.com")].

(** Patient 1 and provider 2, created at times 1000 and 1001. *)
Definition patient_row : row := row_of (insert Patient ∅ (mkEnv 1000 1) patient_kw).
Definition s1 : store := after (insert Patient ∅ (mkEnv 1000 1) patient_kw) ∅.
Definition s2 : store := after (insert Provider s1 (mkEnv 1001 2) provider_kw) s1.

(** An appointment of patient 1 with provider 2, nothing else given. *)
Definition appointment_kw : row :=
  list_to_map [("patient_id", VUuid 1); ("provider_id", VUuid 2);
               ("appointment_date", VTime 9000)].
Definition appointment_row : row :=
  row_of (insert Appointment s2 (mkEnv 1002 3) appointment_kw).
Definition s3 : store := after (insert Appointment s2 (mkEnv 1002 3) appointment_kw) s2.

(** The same appointment, recorded as completed. *)
Definition completed_kw : row := <["status" := VStr "completed"]> appointment_kw.
Definition completed_row : row :=
  row_of (insert Appointment s2 (mkEnv 1002 3) completed_kw).
Definition s3_completed : store :=
  after (insert Appointment s2 (mkEnv 1002 3) completed_kw) s2.

(** The same appointment, with a duration of zero minutes. *)
Definition zero_duration_kw : row := <["duration_minutes" := VInt 0]> appointment_kw.
Definition zero_duration_row : row :=
  row_of (insert Appointment s2 (mkEnv 1002 3) zero_duration_kw).

(** A message of patient 1 to provider 2. *)
Definition message_kw : row :=
  list_to_map [("patient_id", VUuid 1); ("provider_id", VUuid 2);
               ("subject", VStr "Refill"); ("message_body", VStr "Please renew.");
               ("sender_type", VStr "patient")].
Definition message_row : row := row_of (insert Message s2 (mkEnv 1003 4) message_kw).
Definition s4 : store := after (insert Message s2 (mkEnv 1003 4) message_kw) s2.

(** The same message, flagged as read by its creator. *)
Definition read_message_kw : row := <["is_read" := VBool true]> message_kw.
Definition read_message_row : row :=
  row_of (insert Message s2 (mkEnv 1003 4) read_message_kw).

(** A lab result of patient 1. *)
Definition lab_kw : row :=
  list_to_map [("patient_id", VUuid 1); ("test_name", VStr "Potassium");
               ("status", VStr "normal")].
Definition lab_row : row := row_of (insert LabResult s2 (mkEnv 1004 5) lab_kw).
Definition s5 : store := after (insert LabResult s2 (mkEnv 1004 5) lab_kw) s2.

(** The same result, flagged critical although its status is normal. *)
Definition critical_normal_kw : row := <["is_critical" := VBool true]> lab_kw.
Definition critical_normal_row : row :=
  row_of (insert LabResult s2 (mkEnv 1004 5) critical_normal_kw).

(** A health alert of patient 1. *)
Definition alert_kw : row :=
  list_to_map [("patient_id", VUuid 1); ("alert_type", VStr "lab_result");
               ("title", VStr "New result"); ("message", VStr "A result is ready.")].
Definition alert_row : row := row_of (insert HealthAlert s2 (mkEnv 1005 6) alert_kw).
Definition s6 : store := after (insert HealthAlert s2 (mkEnv 1005 6) alert_kw) s2.

(** Later writes, at time 2000. *)
Definition row_in (res : store * (Store.store_error + row)) : row :=
  match res.2 with
  | inr r => r
  | inl _ => ∅
  end.

Definition phone_kw : row := {["phone" := VStr "555-0100"]}.
Definition phone_update : db_error + (store * row) :=
  update Patient s1 (mkEnv 2000 0) 1 phone_kw.
Definition s1_phone : store := after phone_update s1.
Definition phone_row : row := row_of phone_update.



(** The completed appointment 3 put back to scheduled. *)
Definition rescheduled : store * (Store.store_error + row) :=
  Store.transition Appointment s3_completed (mkEnv 2000 0) 3 "scheduled".

(** Message 4 marked read at time 2001. *)
Definition marked : store * (Store.store_error + row) :=
  Store.mark_read Message s4 (mkEnv 2001 0) 4.

Definition subject_kw : row := {["subject" := VStr "Refill request"]}.
Definition subject_row : row := row_of (update Message s4 (mkEnv 2000 0) 4 subject_kw).
Definition s4_subject : store := after (update Message s4 (mkEnv 2000 0) 4 subject_kw) s4.

Definition notes_kw : row := {["provider_notes" := VStr "Repeat in a month."]}.
Definition notes_row : row := row_of (update LabResult s5 (mkEnv 2000 0) 5 notes_kw).
Definition s5_notes : store := after (update LabResult s5 (mkEnv 2000 0) 5 notes_kw) s5.

Definition location_kw : row := {["location" := VStr "Room 4"]}.
Definition location_row : row := row_of (update Appointment s3 (mkEnv 2000 0) 3 location_kw).
Definition s3_location : store := after (update Appointment s3 (mkEnv 2000 0) 3 location_kw) s3.

Definition title_kw : row := {["title" := VStr "New lab result"]}.
Definition title_row : row := row_of (update HealthAlert s6 (mkEnv 2000 0) 6 title_kw).
Definition s6_title : store := after (update HealthAlert s6 (mkEnv 2000 0) 6 title_kw) s6.

(** Writes at time 2000 that name the columns the invariants speak of. *)
Definition flag_kw : row := {["is_read" := VBool true]}.
Definition flagged_row : row := row_of (update Message s4 (mkEnv 2000 0) 4 flag_kw).

Definition critical_kw : row := {["is_critical" := VBool true]}.
Definition made_critical_row : row :=
  row_of (update LabResult s5 (mkEnv 2000 0) 5 critical_kw).

Definition negative_kw : row := {["duration_minutes" := VInt (-15)]}.
Definition negative_row : row :=
  row_of (update Appointment s3 (mkEnv 2000 0) 3 negative_kw).

End Sample.

(* ===================================================================== *)
(** ** [app/main.py]: the request middleware and the plain endpoints      *)
(* ===================================================================== *)

Module Middleware.
Import Main.

(** What [log_requests] reads of the connection beside the headers:
    [request.method] and [request.client.host], [client] being [None] when
    the server gives no peer address. *)
Record Connection : Type := mkConnection {
  request : Request;
  method : string;
  client : option string
}.

(** A response on its way out: the status and body, and the raw header
    list (names in lower case). *)
Record Response : Type := mkResponse {
  payload : JSONResponse;
  raw_headers : list (string * string)
}.

(** [response.headers.get(name)] *)
Definition response_header (name : string) (r : Response) : option string :=
  assoc_get (lower name) (raw_headers r).

Fixpoint remove_header (k : string) (l : list (string * string)) : list (string * string) :=
  match l with
  | [] => []
  | (k', v') :: rest =>
      if String.eqb k' k then remove_header k rest else (k', v') :: remove_header k rest
  end.

(** [headers[key] = value] on a mutable header list: the first entry of
    that name is replaced and the later ones dropped; a new name is
    appended. *)
Fixpoint replace_header (k v : string) (l : list (string * string))
  : list (string * string) :=
  match l with
  | [] => [(k, v)]
  | (k', v') :: rest =>
      if String.eqb k' k then (k, v) :: remove_header k rest
      else (k', v') :: replace_header k v rest
  end.

Definition set_header (key value : string) (r : Response) : Response :=
  mkResponse (payload r) (replace_header (lower key) value (raw_headers r)).

Section LogRequests.
(** [str] and [round(., 4)] on floats. *)
Variable str : float -> string.
Variable round4 : float -> float.

(** [log_requests] (main.py, lines 121-161).  [start_time] and [end_time]
    are the two readings of [time.time()]; [call_next] runs the rest of the
    application and yields what it logs and the response. *)
Definition log_requests
    (conn : Connection) (start_time end_time : float)
    (call_next : Connection -> list log_record * Response)
  : list log_record * Response :=
  let request_id := headers_get (request conn) "X-Request-ID" "unknown" in
  let user_agent := headers_get (request conn) "User-Agent" "unknown" in
  let client_ip := match client conn with Some host => host | None => "unknown" end in
  let started :=
    mkLog LogInfo "Request started"
      [("method", JString (method conn));
       ("url", JString (url (request conn)));
       ("request_id", JString request_id);
       ("client_ip", JString client_ip);
       ("user_agent", JString user_agent)] in
  let (inner, response) := call_next conn in
  let process_time := (end_time - start_time)%float in
  let completed :=
    mkLog LogInfo "Request completed"
      [("method", JString (method conn));
       ("url", JString (url (request conn)));
       ("status_code", JInt (resp_status_code (payload response)));
       ("process_time", JFloat (round4 process_time));
       ("request_id", JString request_id)] in
  (started :: inner ++ [completed],
   set_header "X-Request-ID" request_id
     (set_header "X-Process-Time" (str process_time) response)).
End LogRequests.

(** The exceptions answered inside the middleware: the handlers of
    [PatientPortalException] and [RequestValidationError] run below
    [log_requests], which sees their response come back from [call_next].
    (The handler registered for [Exception] answers outside the
    middleware, after [call_next] has raised.) *)
Inductive handled : Type :=
| HandledPortal (exc : PatientPortalException)
| HandledValidation (exc : RequestValidationError).

Definition raised_of (e : handled) : raised :=
  match e with
  | HandledPortal exc => RaisedPortal exc
  | HandledValidation exc => RaisedValidation exc
  end.

(** The application behind the middleware when a route raises such an
    exception: the registered handler answers with a JSON response whose
    headers are [response_headers]. *)
Definition raising (now : float) (e : handled) (response_headers : list (string * string))
    (conn : Connection) : list log_record * Response :=
  let (logs, r) := handle_exception (request conn) now (raised_of e) in
  (logs, mkResponse r response_headers).

(** [docs_url] and [redoc_url] as the application is created
    (main.py, lines 65-66). *)
Definition docs_url (environment : string) : option string :=
  if negb (String.eqb environment "production") then Some "/docs" else None.

Definition redoc_url (environment : string) : option string :=
  if negb (String.eqb environment "production") then Some "/redoc" else None.

(** The body of [root] (main.py, lines 269-284). *)
Definition root (environment : string) (now : float) : json :=
  JDict [("success", JBool true);
         ("data", JDict [("name", JString "Patient Portal API");
                         ("version", JString "1.0.0");
                         ("description", JString "Healthcare patient portal backend API");
                         ("docs_url", if negb (String.eqb environment "production")
                                      then JString "/docs" else JNull);
                         ("health_url", JString "/health")]);
         ("meta", JDict [("timestamp", JFloat now)])].

(** Reading an error envelope back: the exception a client can
    reconstruct from status and body. *)
Definition decode_error (r : JSONResponse) : option PatientPortalException :=
  match json_get "error" (content r) with
  | Some err =>
      match json_get "code" err, json_get "message" err, json_get "details" err with
      | Some (JString c), Some (JString m), Some d =>
          Some (mkPatientPortalException (resp_status_code r) c m d)
      | _, _, _ => None
      end
  | None => None
  end.

End Middleware.

(* ===================================================================== *)
(** ** [app/models/patient.py]: the relationships                         *)
(* ===================================================================== *)

Module Relationships.
Import Models.

(** [relationship("Target", back_populates="attr")] *)
Record relationship : Type := mkRelationship {
  target : string;
  back_populates : string
}.

(** A mapped class: its name, its table and its relationship attributes. *)
Record Mapped : Type := mkMapped {
  class_name : string;
  model : Model;
  relationships : list (string * relationship)
}.

Definition classes : list Mapped :=
  [mkMapped "Patient" Patient
     [("appointments", mkRelationship "Appointment" "patient");
      ("lab_results", mkRelationship "LabResult" "patient");
      ("medications", mkRelationship "Medication" "patient");
      ("messages", mkRelationship "Message" "patient")];
   mkMapped "Provider" Provider
     [("appointments", mkRelationship "Appointment" "provider");
      ("medications", mkRelationship "Medication" "prescriber");
      ("messages", mkRelationship "Message" "provider")];
   mkMapped "Appointment" Appointment
     [("patient", mkRelationship "Patient" "appointments");
      ("provider", mkRelationship "Provider" "appointments")];
   mkMapped "LabResult" LabResult
     [("patient", mkRelationship "Patient" "lab_results")];
   mkMapped "Medication" Medication
     [("patient", mkRelationship "Patient" "medications");
      ("prescriber", mkRelationship "Provider" "medications")];
   mkMapped "Message" Message
     [("patient", mkRelationship "Patient" "messages");
      ("provider", mkRelationship "Provider" "messages")];
   mkMapped "HealthAlert" HealthAlert []].

(** The class registry: a class by its name. *)
Definition class_of (name : string) : option Mapped :=
  List.find (fun k => String.eqb (class_name k) name) classes.

(** Some column of [child] is a foreign key into the table of [parent]. *)
Definition references (child parent : Model) : bool :=
  existsb (fun nc =>
    match col_foreign_key nc.2 with
    | Some fk => String.eqb (fk_table fk) (tablename parent)
    | None => false
    end) (columns child).

(** The table a foreign key points at, looked up in [Base.metadata]. *)
Definition table_of (name : string) : option Model :=
  List.find (fun m => String.eqb (tablename m) name) metadata.

Definition sqltype_eqb (a b : sqltype) : bool :=
  match a, b with
  | String_ n, String_ k => Nat.eqb n k
  | Text, Text | Integer, Integer | Boolean, Boolean | Date, Date | JSON, JSON => true
  | Decimal p s, Decimal p' s' => Nat.eqb p p' && Nat.eqb s s'
  | DateTime z, DateTime z' => Bool.eqb z z'
  | UUID u, UUID u' => Bool.eqb u u'
  | _, _ => false
  end.

End Relationships.

(* ===================================================================== *)
(** ** Integrity of a store with respect to the declared constraints      *)
(* ===================================================================== *)

Module Integrity.
Import Models Session.

(** Rows sit under their primary key. *)
Definition keyed (s : store) : Prop :=
  forall m id r, m ∈ metadata -> get m s id = Some r -> identity m r = Some id.

(** Cells have the type of their column, and NOT NULL columns a value. *)
Definition typed (s : store) : Prop :=
  forall m id r n c, m ∈ metadata -> get m s id = Some r -> column m n = Some c ->
    has_type (col_type c) (cell r n) = true /\
    (col_nullable c = false -> is_null (cell r n) = false).

(** No two rows of a table agree on a primary-key or unique column. *)
Definition unique_columns (s : store) : Prop :=
  forall m id1 id2 r1 r2 n c, m ∈ metadata ->
    get m s id1 = Some r1 -> get m s id2 = Some r2 -> column m n = Some c ->
    (col_primary_key c || col_unique c) = true ->
    value_eqb (cell r1 n) (cell r2 n) = true -> id1 = id2.

(** Every foreign-key cell that is not NULL names a stored row. *)
Definition references_resolve (s : store) : Prop :=
  forall m id r n c fk, m ∈ metadata -> get m s id = Some r -> column m n = Some c ->
    col_foreign_key c = Some fk -> is_null (cell r n) = false ->
    exists id' r', get_table s (fk_table fk) !! id' = Some r' /\
      value_eqb (cell r' (fk_column fk)) (cell r n) = true.

Record consistent (s : store) : Prop := mkConsistent {
  consistent_keyed : keyed s;
  consistent_typed : typed s;
  consistent_unique : unique_columns s;
  consistent_references : references_resolve s
}.



(** The stores the operations can build from the empty database. *)
Inductive reachable : store -> Prop :=
| reachable_empty : reachable ∅
| reachable_insert m s env kw s' r :
    reachable s -> m ∈ metadata -> insert m s env kw = inr (s', r) -> reachable s'
| reachable_update m s env id kw s' r :
    reachable s -> m ∈ metadata -> update m s env id kw = inr (s', r) -> reachable s'.

End Integrity.

(* ===================================================================== *)
(** ** More of the small clinic                                           *)
(* ===================================================================== *)

Module Cases.
Import Models Session Main Middleware.

(** A request with an id, and an application that answers 200. *)
Definition conn : Connection :=
  mkConnection (mkRequest "http://testserver/api/v1/patients"
                  [("host", "testserver"); ("x-request-id", "req-42");
                   ("user-agent", "curl/8.0")])
               "GET" (Some "127.0.0.1").

Definition ok_response : Response :=
  mkResponse (mkJSONResponse 200 (JDict [("success", JBool true)]))
             [("content-length", "17"); ("content-type", "application/json")].

Definition call_next (_ : Connection) : list log_record * Response := ([], ok_response).

Definition str_sample (_ : float) : string := "0.25".
Definition round_sample (f : float) : float := f.

Definition logged : list log_record * Response :=
  log_requests str_sample round_sample conn 10.5%float 10.75%float call_next.

Definition not_found : PatientPortalException :=
  mkPatientPortalException 404 "NOT_FOUND" "Patient not found"
    (JDict [("patient_id", JString "p-1")]).

(** Provider 2 as stored. *)
Definition provider_row : row :=
  Sample.row_of (insert Provider Sample.s1 (mkEnv 1001 2) Sample.provider_kw).

(** A second patient, number 7, created at 1500. *)
Definition patient7_kw : row :=
  list_to_map [("first_name", VStr "Alan"); ("last_name", VStr "Turing");
               ("date_of_birth", VDate 5000); ("email", VStr "c@x.com");
               ("medical_record_number", VStr "MRN-7")].
Definition patient7_row : row :=
  Sample.row_of (insert Patient Sample.s1 (mkEnv 1500 7) patient7_kw).
Definition s1_two : store :=
  Sample.after (insert Patient Sample.s1 (mkEnv 1500 7) patient7_kw) Sample.s1.

(** Patient 7 asking for the email of patient 1. *)
Definition take_email_kw : row := {["email" := VStr "a@x.com"]}.

(** A patient without an email. *)
Definition no_email_kw : row := delete "email" Sample.patient_kw.


(** A medication of patient 1 prescribed by provider 2. *)
Definition medication_kw : row :=
  list_to_map [("patient_id", VUuid 1); ("prescriber_id", VUuid 2);
               ("medication_name", VStr "Metformin"); ("prescribed_date", VDate 20000)].
Definition medication_row : row :=
  Sample.row_of (insert Medication Sample.s2 (mkEnv 1006 8) medication_kw).
Definition s2_medication : store :=
  Sample.after (insert Medication Sample.s2 (mkEnv 1006 8) medication_kw) Sample.s2.

End Cases.

(* ===================================================================== *)
(** ** Properties                                                         *)
(* ===================================================================== *)

Section ErrorEnvelope.
Import Main.

(** C1.  Whatever is raised -- a [PatientPortalException], a request
    validation error or any other exception -- the body of the response has
    exactly the members [success], [error] and [meta], [error] exactly
    [code], [message] and [details], [meta] exactly [timestamp] and
    [request_id], and [success] is false. *)
Theorem error_envelope_shape (request : Request) (now : float) (e : raised) :
  is_error_envelope (content (handle_exception request now e).2).
Proof.
  destruct e as [exc|exc|exc]; unfold is_error_envelope; cbn;
    (split; [reflexivity|]); (split; [reflexivity|]);
    split; eexists; (split; [reflexivity|]); reflexivity.
Qed.


(** The exception does reach the log: the record written by the general
    handler carries [str(exc)] and the class name. *)
Lemma unexpected_exception_is_logged (request : Request) (now : float) (exc : Exception) :
  exists rec, (handle_exception request now (RaisedOther exc)).1 = [rec] /\
    assoc_get "error" (log_kwargs rec) = Some (JString (exc_str exc)) /\
    assoc_get "error_type" (log_kwargs rec) = Some (JString (exc_type_name exc)).
Proof. eexists. cbn. repeat split. Qed.

(** A success body, such as the one of [health_check], is not an error
    envelope. *)
Lemma health_check_is_no_error_envelope (environment : string) (now : float) :
  ~ is_error_envelope (health_check environment now).
Proof. intros [H _]. discriminate H. Qed.

End ErrorEnvelope.

Section SessionFacts.
Import Models Session.

Lemma build_lookup (f : string -> Column -> value) (m : Model) (n : string) :
  build f m !! n = f n <$> column m n.
Proof.
  unfold build, column. induction (columns m) as [|[k c] l IH]; cbn.
  - apply lookup_empty.
  - destruct (String.eqb_spec n k) as [->|Hne].
    + apply lookup_insert_eq.
    + rewrite lookup_insert_ne by congruence. exact IH.
Qed.

Lemma cell_build f m n c : column m n = Some c -> cell (build f m) n = f n c.
Proof. intros H. unfold cell. by rewrite build_lookup, H. Qed.

Lemma build_not_column f m n : column m n = None -> build f m !! n = None.
Proof. intros H. by rewrite build_lookup, H. Qed.

Lemma insert_inr m s env kw s' r :
  insert m s env kw = inr (s', r) ->
  r = build (insert_value env kw) m /\
  exists u, identity m r = Some u /\
            s' = <[tablename m := <[u := r]> (get_table s (tablename m))]> s.
Proof.
  unfold insert, ensure.
  repeat (case_match; try discriminate).
  intros [= <- <-]. eauto.
Qed.

Lemma update_inr m s env id kw s' r :
  update m s env id kw = inr (s', r) ->
  exists old, get m s id = Some old /\
    r = build (update_value env old kw) m /\
    exists u, identity m r = Some u /\
      s' = <[tablename m := <[u := r]> (delete id (get_table s (tablename m)))]> s.
Proof.
  unfold update, ensure, get.
  repeat (case_match; try discriminate).
  intros [= <- <-]. eauto 10.
Qed.

Lemma get_stored m s u r tb :
  get m (<[tablename m := <[u := r]> tb]> s) u = Some r.
Proof. unfold get, get_table. by rewrite !lookup_insert_eq. Qed.


Lemma insert_cell m s env kw s' r n c :
  insert m s env kw = inr (s', r) -> column m n = Some c ->
  cell r n = insert_value env kw n c.
Proof. intros [-> _]%insert_inr Hc. by apply cell_build. Qed.

Lemma update_cell m s env id kw old s' r n c :
  get m s id = Some old -> update m s env id kw = inr (s', r) ->
  column m n = Some c -> cell r n = update_value env old kw n c.
Proof.
  intros Hold (old' & Hold' & -> & _)%update_inr Hc.
  rewrite Hold in Hold'. injection Hold' as <-. by apply cell_build.
Qed.

Lemma insert_stored m s env kw s' r :
  insert m s env kw = inr (s', r) ->
  exists u, identity m r = Some u /\ get m s' u = Some r.
Proof.
  intros (_ & u & Hu & ->)%insert_inr. exists u. split; [done|apply get_stored].
Qed.

Lemma update_stored m s env id kw s' r :
  update m s env id kw = inr (s', r) ->
  exists u, identity m r = Some u /\ get m s' u = Some r.
Proof.
  intros (old & _ & _ & u & Hu & ->)%update_inr. exists u.
  split; [done|apply get_stored].
Qed.

(** A column the caller leaves out, or passes as [None], takes its default
    on INSERT. *)
Lemma insert_value_omitted env kw n c :
  cell kw n = VNull -> evaluates_none (col_type c) = false ->
  insert_value env kw n c = insert_default env c.
Proof.
  unfold cell, insert_value. intros Hk ->.
  destruct (kw !! n) as [v|]; [subst v|]; reflexivity.
Qed.

(** A column outside the SET clause keeps its cell. *)
Lemma update_value_frame env old kw n c :
  kw !! n = None -> col_onupdate c = None ->
  update_value env old kw n c = cell old n.
Proof. unfold update_value, set_value. by intros -> ->. Qed.


Lemma column_In m n c : column m n = Some c -> (n, c) ∈ columns m.
Proof.
  unfold column. induction (columns m) as [|[k c'] l IH]; cbn; [done|].
  destruct (String.eqb_spec n k) as [->|Hne].
  - intros [= ->]. left.
  - intros H. right. auto.
Qed.

Lemma column_names_In m n : n ∈ column_names m -> is_Some (column m n).
Proof.
  unfold column, column_names. induction (columns m) as [|[k c'] l IH]; cbn.
  - by intros ?%elem_of_nil.
  - destruct (String.eqb_spec n k) as [->|Hne]; [eauto|].
    intros [?|?]%elem_of_cons; [done|auto].
Qed.



Lemma first_error_hit {A : Type} (chk : A -> option db_error) l x e :
  x ∈ l -> chk x = Some e ->
  exists y e', y ∈ l /\ chk y = Some e' /\ first_error chk l = Some e'.
Proof.
  induction l as [|a l IH]; [by intros ?%elem_of_nil|].
  intros Hx He. cbn. destruct (chk a) as [ea|] eqn:Ha.
  - exists a, ea. split; [left|done].
  - apply elem_of_cons in Hx as [->|Hx]; [congruence|].
    destruct (IH Hx He) as (y & e' & Hy & Hc & Hf).
    exists y, e'. split; [by right|done].
Qed.

Lemma first_error_None {A : Type} (chk : A -> option db_error) l :
  (forall x, x ∈ l -> chk x = None) -> first_error chk l = None.
Proof.
  induction l as [|a l IH]; [done|].
  intros H. cbn. rewrite (H a) by left. apply IH. intros x Hx. apply H. by right.
Qed.

Lemma rows_elem (tb : table) id r : tb !! id = Some r -> r ∈ rows tb.
Proof.
  intros H. unfold rows. apply list_elem_of_fmap. exists (id, r).
  split; [done|]. by apply elem_of_map_to_list.
Qed.

Lemma existsb_elem {A : Type} (f : A -> bool) l x :
  x ∈ l -> f x = true -> existsb f l = true.
Proof. intros Hx Hf. apply existsb_exists. exists x. by rewrite <- list_elem_of_In. Qed.

(** A row already holding the value of a unique column makes the
    uniqueness check fail. *)
Lemma check_unique_hit written m r tb n c id0 r0 :
  column m n = Some c -> written n c = true ->
  (col_primary_key c || col_unique c) = true ->
  tb !! id0 = Some r0 -> value_eqb (cell r0 n) (cell r n) = true ->
  exists n', check_unique written m r tb = Some (UniqueViolation n').
Proof.
  intros Hc Hw Hu Htb Heq. unfold check_unique.
  edestruct (first_error_hit
    (fun nc : string * Column =>
       if written nc.1 nc.2 && (col_primary_key nc.2 || col_unique nc.2)
          && existsb (fun r' => value_eqb (cell r' nc.1) (cell r nc.1)) (rows tb)
       then Some (UniqueViolation nc.1) else None) (columns m) (n, c))
    as (y & e' & _ & Hy & ->).
  - by apply column_In.
  - cbn. rewrite Hw, Hu. cbn.
    rewrite (existsb_elem _ _ r0); [reflexivity| |exact Heq].
    by eapply rows_elem.
  - cbn in Hy. case_match; [|discriminate]. injection Hy as <-. eauto.
Qed.


Lemma existsb_all_false {A : Type} (f : A -> bool) l :
  (forall x, f x = false) -> existsb f l = false.
Proof. intros H. induction l as [|a l IH]; cbn; [done|]. by rewrite H, IH. Qed.

Lemma existsb_impl {A : Type} (f g : A -> bool) l :
  (forall x, g x = true -> f x = true) -> existsb g l = true -> existsb f l = true.
Proof.
  intros H [x [Hx Hg]]%existsb_exists. apply existsb_exists. exists x. auto.
Qed.

Lemma referencing_not_targeted s t n v :
  targeted t n = false -> referencing s t n v = false.
Proof.
  intros Ht. destruct (referencing s t n v) eqn:Hr; [|done].
  rewrite <- Ht. symmetry. revert Hr. unfold targeted, referencing.
  apply existsb_impl. intros m'. apply existsb_impl. intros [n' c']. cbn.
  destruct (col_foreign_key c'); [|done]. by intros [? _]%andb_prop.
Qed.

Lemma referencing_no_match s t n v :
  (forall w, value_eqb w v = false) -> referencing s t n v = false.
Proof.
  intros H. unfold referencing. apply existsb_all_false. intros m'.
  apply existsb_all_false. intros [n' c']. cbn.
  destruct (col_foreign_key c'); [|done].
  rewrite (existsb_all_false (fun r' => value_eqb (cell r' n') v)); [|by intros].
  apply andb_false_r.
Qed.

Lemma value_eqb_irrefl v : value_eqb v v = false -> forall w, value_eqb w v = false.
Proof.
  destruct v; cbn; intros H w; try by destruct w.
  - by rewrite String.eqb_refl in H.
  - by rewrite Z.eqb_refl in H.
  - by rewrite Z.eqb_refl in H.
  - by destruct b.
  - by rewrite Z.eqb_refl in H.
  - by rewrite Z.eqb_refl in H.
  - by rewrite N.eqb_refl in H.
Qed.

Lemma In_column m n c :
  NoDup (column_names m) -> (n, c) ∈ columns m -> column m n = Some c.
Proof.
  unfold column, column_names. induction (columns m) as [|[k c'] l IH]; cbn.
  - by intros _ ?%elem_of_nil.
  - intros [Hk Hnd]%NoDup_cons [[= -> ->]|Hin]%elem_of_cons.
    + by rewrite String.eqb_refl.
    + destruct (String.eqb_spec n k) as [->|Hne]; [|auto].
      exfalso. apply Hk. apply list_elem_of_fmap. by exists (k, c).
Qed.

(** An UPDATE that stays clear of keys succeeds on every stored row. *)
Lemma update_plain m s env id kw old :
  NoDup (column_names m) -> valid_keywords m kw = true ->
  get m s id = Some old -> identity m old = Some id ->
  plain_set m env kw = true ->
  update m s env id kw =
    inr (<[tablename m := <[id := build (update_value env old kw) m]>
                            (get_table s (tablename m))]> s,
         build (update_value env old kw) m).
Proof.
  intros Hnd Hvalid Hget Hid Hplain.
  unfold update. rewrite Hvalid. cbn [negb]. unfold get in Hget. rewrite Hget.
  set (r := build (update_value env old kw) m).
  assert (Hcell : forall n c, (n, c) ∈ columns m -> cell r n = update_value env old kw n c).
  { intros n c Hin. apply cell_build. by apply In_column. }
  assert (HP : forall n c, (n, c) ∈ columns m ->
            match set_value env kw n c with
            | None => cell r n = cell old n
            | Some v => cell r n = v /\ has_type (col_type c) v = true /\
                (col_nullable c || negb (is_null v)) = true /\
                (col_primary_key c || col_unique c) = false /\
                col_foreign_key c = None /\ targeted (tablename m) n = false
            end).
  { intros n c Hin. pose proof (Hcell n c Hin) as Hc. unfold update_value in Hc.
    unfold plain_set in Hplain. rewrite forallb_forall in Hplain.
    specialize (Hplain (n, c)). rewrite <- list_elem_of_In in Hplain.
    specialize (Hplain Hin). cbn in Hplain.
    destruct (set_value env kw n c) as [v|]; [|done].
    apply andb_prop in Hplain as [Hplain Ht].
    apply andb_prop in Hplain as [Hplain Hf].
    apply andb_prop in Hplain as [Hplain Hk].
    apply andb_prop in Hplain as [Hty Hnn].
    repeat split; try done.
    - by apply negb_true_iff.
    - by destruct (col_foreign_key c).
    - by apply negb_true_iff. }
  assert (E1 : check_types (set_clause env kw) m r = None).
  { apply first_error_None. intros [n c] Hin. specialize (HP n c Hin).
    unfold set_clause. cbn [fst snd]. destruct (set_value env kw n c); [|done].
    destruct HP as (-> & -> & _). done. }
  assert (E2 : check_not_null (set_clause env kw) m r = None).
  { apply first_error_None. intros [n c] Hin. specialize (HP n c Hin).
    unfold set_clause. cbn [fst snd]. destruct (set_value env kw n c); [|done].
    destruct HP as (-> & _ & Hn & _).
    destruct (col_nullable c); [done|]. cbn in Hn.
    apply negb_true_iff in Hn. by rewrite Hn. }
  assert (E3 : check_unique (set_clause env kw) m r
                 (delete id (get_table s (tablename m))) = None).
  { apply first_error_None. intros [n c] Hin. specialize (HP n c Hin).
    unfold set_clause. cbn [fst snd]. destruct (set_value env kw n c); [|done].
    destruct HP as (_ & _ & _ & -> & _). done. }
  assert (E4 : check_foreign_keys (set_clause env kw) m r s = None).
  { apply first_error_None. intros [n c] Hin. specialize (HP n c Hin).
    unfold set_clause. cbn [fst snd]. destruct (set_value env kw n c).
    - destruct HP as (_ & _ & _ & _ & -> & _). done.
    - by destruct (col_foreign_key c). }
  assert (E5 : check_referenced m s old r = None).
  { apply first_error_None. intros [n c] Hin. specialize (HP n c Hin). cbn [fst snd].
    destruct (set_value env kw n c).
    - destruct HP as (_ & _ & _ & _ & _ & Ht).
      by rewrite (referencing_not_targeted _ _ _ _ Ht), andb_false_r.
    - rewrite HP. destruct (value_eqb (cell old n) (cell old n)) eqn:Hv; [done|].
      by rewrite (referencing_no_match _ _ _ _ (value_eqb_irrefl _ Hv)). }
  assert (E6 : identity m r = Some id).
  { rewrite <- Hid. unfold identity.
    destruct (List.find _ (columns m)) as [[n c]|] eqn:Hfind; [|done].
    apply find_some in Hfind as [Hin Hpk]. rewrite <- list_elem_of_In in Hin.
    specialize (HP n c Hin). cbn in *.
    destruct (set_value env kw n c).
    - destruct HP as (_ & _ & _ & Hk & _). by rewrite Hpk in Hk.
    - by rewrite HP. }
  rewrite E1, E2, E3, E4, E5, E6. cbn. by rewrite insert_delete_eq.
Qed.


Lemma metadata_NoDup : Forall (fun m => NoDup (column_names m)) metadata.
Proof.
  unfold metadata.
  repeat (apply Forall_cons_2; [apply (bool_decide_unpack _); vm_compute; exact I|]).
  apply Forall_nil_2.
Qed.

Lemma update_cell_set m s env id kw s' r n c v :
  update m s env id kw = inr (s', r) -> column m n = Some c ->
  set_value env kw n c = Some v -> cell r n = v.
Proof.
  intros (old & _ & -> & _)%update_inr Hc Hv.
  erewrite cell_build by eassumption. unfold update_value. by rewrite Hv.
Qed.

Lemma store_update_inr m s env id kw s' r :
  Store.update m s env id kw = (s', inr r) -> update m s env id kw = inr (s', r).
Proof.
  unfold Store.update. destruct (update m s env id kw) as [e|[s'' r'']]; [done|].
  by intros [= -> ->].
Qed.


(** *** Reading off the outcome of a concrete operation *)

Lemma outcome (res : db_error + (store * row)) (s : store) :
  Sample.succeeded res = true -> res = inr (Sample.after res s, Sample.row_of res).
Proof. by destruct res as [e|[s' r]]. Qed.

Lemma store_outcome (res : store * (Store.store_error + row)) :
  Sample.succeeded res.2 = true -> res = (res.1, inr (Sample.row_in res)).
Proof. destruct res as [s' [e|r]]; [done|reflexivity]. Qed.

Lemma insert_get m s env kw s' r u :
  insert m s env kw = inr (s', r) -> identity m r = Some u -> get m s' u = Some r.
Proof.
  intros (u' & Hu & Hg)%insert_stored Hid. rewrite Hu in Hid. by injection Hid as ->.
Qed.

Lemma metadata_columns_NoDup m : m ∈ metadata -> NoDup (column_names m).
Proof. intros Hm. exact (proj1 (Forall_forall _ _) metadata_NoDup m Hm). Qed.

(** The value an INSERT binds for a keyword that carries one. *)
Lemma insert_value_given env kw n c v :
  kw !! n = Some v -> is_null v = false -> insert_value env kw n c = v.
Proof. unfold insert_value. intros -> Hv. by destruct v. Qed.

Lemma update_value_given env old kw n c v :
  kw !! n = Some v -> is_null v = false ->
  set_value env kw n c = Some v /\ update_value env old kw n c = v.
Proof. unfold update_value, set_value. intros -> Hv. by destruct v. Qed.

Lemma update_value_named env old kw n c v :
  kw !! n = Some v -> evaluates_none (col_type c) = false ->
  update_value env old kw n c = v.
Proof. unfold update_value, set_value. intros -> ->. by destruct v. Qed.

Lemma insert_value_plain env kw n c :
  col_default c = None -> col_server_default c = None ->
  evaluates_none (col_type c) = false -> insert_value env kw n c = cell kw n.
Proof.
  unfold insert_value, insert_default, cell. intros -> -> ->.
  by destruct (kw !! n) as [[]|].
Qed.



(** Writing one harmless column next to the [onupdate] stamps. *)
Lemma plain_set_single m env n0 v0 c0 :
  NoDup (column_names m) -> column m n0 = Some c0 -> is_null v0 = false ->
  has_type (col_type c0) v0 = true ->
  (col_primary_key c0 || col_unique c0) = false -> col_foreign_key c0 = None ->
  targeted (tablename m) n0 = false ->
  plain_set m env ∅ = true ->
  plain_set m env {[n0 := v0]} = true.
Proof.
  intros Hnd Hc Hv Hty Hk Hfk Ht Hplain. unfold plain_set in *.
  rewrite forallb_forall in Hplain. apply forallb_forall. intros [n c] Hin.
  pose proof (Hplain _ Hin) as Hnc. cbn [fst snd] in *.
  apply list_elem_of_In in Hin.
  destruct (decide (n = n0)) as [->|Hne].
  - pose proof (In_column m n0 c Hnd Hin) as Hc'. rewrite Hc in Hc'. injection Hc' as <-.
    unfold set_value. rewrite lookup_singleton_eq.
    replace (match v0 with
             | VNull => Some (if evaluates_none (col_type c0) then VJson JNull else VNull)
             | _ => Some v0 end) with (Some v0) by (by destruct v0).
    rewrite Hty, Hv, Hk, Hfk, Ht. cbn. by rewrite orb_true_r.
  - unfold set_value in *. rewrite lookup_singleton_ne by done.
    by rewrite lookup_empty in Hnc.
Qed.

Lemma single_update_accepted m s env id old n0 v0 c0 :
  m ∈ metadata -> get m s id = Some old -> identity m old = Some id ->
  column m n0 = Some c0 -> is_null v0 = false -> has_type (col_type c0) v0 = true ->
  (col_primary_key c0 || col_unique c0) = false -> col_foreign_key c0 = None ->
  targeted (tablename m) n0 = false -> plain_set m env ∅ = true ->
  exists s' r, update m s env id {[n0 := v0]} = inr (s', r) /\
    get m s' id = Some r /\ cell r n0 = v0 /\
    (forall n c, column m n = Some c -> n <> n0 -> col_onupdate c = None ->
       cell r n = cell old n).
Proof.
  intros Hm Hget Hid Hc Hv Hty Hk Hfk Ht Hplain.
  pose proof (metadata_columns_NoDup m Hm) as Hnd.
  rewrite (update_plain m s env id _ old Hnd); try done.
  - eexists _, _. split; [reflexivity|]. split; [apply get_stored|]. split.
    + rewrite (cell_build _ m n0 c0 Hc).
      destruct (update_value_given env old {[n0 := v0]} n0 c0 v0) as [_ H];
        [apply lookup_singleton_eq|done|exact H].
    + intros n c Hcn Hne Hon. rewrite (cell_build _ m n c Hcn).
      apply update_value_frame; [|done]. by apply lookup_singleton_ne.
  - unfold valid_keywords. rewrite map_to_list_singleton. cbn.
    rewrite andb_true_r. apply bool_decide_eq_true.
    apply list_elem_of_fmap. exists (n0, c0). split; [done|by apply column_In].
  - by apply (plain_set_single m env n0 v0 c0).
Qed.

End SessionFacts.

Section Claims.
Import Models Session.

(** C10.  An appointment created without a status and without a duration
    is stored with status "scheduled" and a duration of 30 minutes. *)
Theorem appointment_defaults s env kw s' r :
  insert Appointment s env kw = inr (s', r) ->
  cell kw "status" = VNull -> cell kw "duration_minutes" = VNull ->
  cell r "status" = VStr "scheduled" /\
  cell r "duration_minutes" = VInt 30 /\
  exists u, identity Appointment r = Some u /\ get Appointment s' u = Some r.
Proof.
  intros Hins Hst Hdu. split; [|split].
  - erewrite insert_cell by (exact Hins || reflexivity).
    rewrite insert_value_omitted; first [assumption | reflexivity].
  - erewrite insert_cell by (exact Hins || reflexivity).
    rewrite insert_value_omitted; first [assumption | reflexivity].
  - by eapply insert_stored.
Qed.


(** C9.  [HealthAlert] declares no [updated_at] column while the six other
    models do, none of its columns has an [onupdate], an updated alert
    carries no [updated_at], and every column the update does not name
    keeps its cell. *)
Theorem health_alert_update_frame s env id kw old s' r :
  get HealthAlert s id = Some old ->
  update HealthAlert s env id kw = inr (s', r) ->
  column HealthAlert "updated_at" = None /\
  Forall (fun m => is_Some (column m "updated_at"))
         [Patient; Provider; Appointment; LabResult; Medication; Message] /\
  Forall (fun nc => col_onupdate nc.2 = None) (columns HealthAlert) /\
  r !! "updated_at" = None /\
  (forall n, n ∈ column_names HealthAlert -> kw !! n = None -> cell r n = cell old n).
Proof.
  intros Hold Hupd. split; [reflexivity|]. split; [by repeat constructor|].
  assert (Hno : Forall (fun nc => col_onupdate nc.2 = None) (columns HealthAlert))
    by (by repeat constructor).
  split; [exact Hno|]. split.
  - apply update_inr in Hupd as (? & _ & -> & _). by apply build_not_column.
  - intros n [c Hc]%column_names_In Hkw.
    erewrite update_cell by eassumption.
    apply update_value_frame; [done|].
    apply column_In in Hc. rewrite Forall_forall in Hno. exact (Hno _ Hc).
Qed.

(** C3.  In a store that holds a patient with email (or medical record
    number) [v], creating a patient with the same email (or number) fails
    and leaves the store as it was, the first record included; the failure
    is a [ConflictError] whenever the new patient is otherwise well
    formed. *)
Theorem duplicate_patient_conflict s env kw id0 r0 v :
  get Patient s id0 = Some r0 ->
  (cell r0 "email" = VStr v /\ cell kw "email" = VStr v) \/
  (cell r0 "medical_record_number" = VStr v /\
   cell kw "medical_record_number" = VStr v) ->
  (exists err, Store.create Patient s env kw = (s, inl err)) /\
  (well_formed Patient env kw = true ->
   Store.create Patient s env kw = (s, inl Store.ConflictError)) /\
  get Patient (Store.create Patient s env kw).1 id0 = Some r0.
Proof.
  intros Hget Hdup.
  assert (Hu : exists n', check_unique every_column Patient
                 (build (insert_value env kw) Patient)
                 (get_table s (tablename Patient)) = Some (UniqueViolation n')).
  { destruct Hdup as [[H0 Hk]|[H0 Hk]].
    - eapply (check_unique_hit _ _ _ _ "email"); [reflexivity..|exact Hget|].
      rewrite H0. erewrite cell_build by reflexivity. unfold insert_value, cell in *.
      destruct (kw !! "email") as [[]|]; try discriminate.
      injection Hk as ->. apply String.eqb_refl.
    - eapply (check_unique_hit _ _ _ _ "medical_record_number");
        [reflexivity..|exact Hget|].
      rewrite H0. erewrite cell_build by reflexivity. unfold insert_value, cell in *.
      destruct (kw !! "medical_record_number") as [[]|]; try discriminate.
      injection Hk as ->. apply String.eqb_refl. }
  destruct Hu as [n' Hu].
  assert (Hc : exists err, Store.create Patient s env kw = (s, inl err) /\
                 (well_formed Patient env kw = true -> err = Store.ConflictError)).
  { unfold Store.create, well_formed, insert, ensure. rewrite Hu.
    destruct (valid_keywords Patient kw);
      [|eexists; split; [reflexivity|discriminate]].
    destruct (check_types every_column Patient _);
      [eexists; split; [reflexivity|discriminate]|].
    destruct (check_not_null every_column Patient _);
      eexists; (split; [reflexivity|]); [discriminate|reflexivity]. }
  destruct Hc as (err & Hc & Hw). rewrite Hc. split; [by eauto|].
  split; [|exact Hget]. intros ->%Hw. reflexivity.
Qed.

Import Invariants.

(** C5, amended.  The status transition of a stored appointment to any
    status of at most 20 characters is accepted, whatever the current
    status: scheduled to confirmed, cancelled or completed, and completed
    back to scheduled alike. *)
Theorem status_update_unrestricted s env id old status :
  stored_at Appointment s id old ->
  (String.length status <= 20)%nat ->
  exists s' r,
    Store.transition Appointment s env id status = (s', inr r) /\
    cell r "status" = VStr status /\
    get Appointment s' id = Some r.
Proof.
  intros [Hget Hid] Hlen.
  assert (Hty : has_type (String_ 20) (VStr status) = true)
    by (by apply Nat.leb_le).
  unfold Store.transition, Store.update.
  rewrite (update_plain Appointment s env id _ old).
  - eexists _, _. split; [reflexivity|]. split.
    + erewrite cell_build by reflexivity. reflexivity.
    + apply get_stored.
  - apply (proj1 (Forall_forall _ _) metadata_NoDup). unfold metadata. apply list_elem_of_further, list_elem_of_further, list_elem_of_here.
  - vm_compute. reflexivity.
  - exact Hget.
  - exact Hid.
  - revert Hty. vm_compute. intros ->. reflexivity.
Qed.

(** C4, amended.  For [Message] and [HealthAlert]: a create stores
    [is_read] false when the flag is left out or [None] and the given
    value otherwise, and [read_at] exactly as given (null when left out);
    an update keeps each of the two columns it does not name and stores
    what it names, and an update of the flag alone is accepted on every
    stored row; mark-read stores the flag true together with the store's
    clock reading.  So the equivalence holds after a create that gives
    neither column, is kept by an update that names neither, and holds
    after mark-read. *)
Theorem read_flag_by_default m s env kw s1 r1 s2 env2 id kw2 old s3 r2 s4 env3 id3 s5 r3 :
  m = Message \/ m = HealthAlert ->
  insert m s env kw = inr (s1, r1) ->
  get m s2 id = Some old -> update m s2 env2 id kw2 = inr (s3, r2) ->
  Store.mark_read m s4 env3 id3 = (s5, inr r3) ->
  ((cell kw "is_read" = VNull -> cell r1 "is_read" = VBool false) /\
   (forall v, kw !! "is_read" = Some v -> is_null v = false -> cell r1 "is_read" = v) /\
   cell r1 "read_at" = cell kw "read_at" /\
   (cell kw "is_read" = VNull -> cell kw "read_at" = VNull -> read_consistent r1)) /\
  ((kw2 !! "is_read" = None -> cell r2 "is_read" = cell old "is_read") /\
   (kw2 !! "read_at" = None -> cell r2 "read_at" = cell old "read_at") /\
   (kw2 !! "is_read" = None -> kw2 !! "read_at" = None ->
    read_consistent old -> read_consistent r2) /\
   (forall v, kw2 !! "is_read" = Some v -> cell r2 "is_read" = v) /\
   (forall v, kw2 !! "read_at" = Some v -> cell r2 "read_at" = v) /\
   (identity m old = Some id -> forall b,
      exists s' r, update m s2 env2 id {["is_read" := VBool b]} = inr (s', r) /\
        get m s' id = Some r /\ cell r "is_read" = VBool b /\
        cell r "read_at" = cell old "read_at")) /\
  (cell r3 "is_read" = VBool true /\ cell r3 "read_at" = VTime (now env3) /\
   read_consistent r3).
Proof.
  intros Hm Hins Hold Hupd Hmark.
  assert (Hcols : column m "is_read" = Some (Column_ Boolean [default (Const (VBool false))])
                  /\ column m "read_at" = Some (Column_ (DateTime true) [])
                  /\ m ∈ metadata /\ targeted (tablename m) "is_read" = false
                  /\ plain_set m env2 ∅ = true).
  { destruct Hm as [-> | ->]; (split; [reflexivity|]); (split; [reflexivity|]); split.
    - do 5 apply list_elem_of_further. apply list_elem_of_here.
    - split; vm_compute; reflexivity.
    - do 6 apply list_elem_of_further. apply list_elem_of_here.
    - split; vm_compute; reflexivity. }
  destruct Hcols as (Hc1 & Hc2 & Hmeta & Htg & Hplain).
  unfold Store.mark_read in Hmark. apply store_update_inr in Hmark.
  assert (A3 : cell r1 "read_at" = cell kw "read_at").
  { rewrite (insert_cell _ _ _ _ _ _ _ _ Hins Hc2). by apply insert_value_plain. }
  assert (A1 : cell kw "is_read" = VNull -> cell r1 "is_read" = VBool false).
  { intros Hk. rewrite (insert_cell _ _ _ _ _ _ _ _ Hins Hc1).
    rewrite insert_value_omitted; first [assumption | reflexivity]. }
  assert (B1 : kw2 !! "is_read" = None -> cell r2 "is_read" = cell old "is_read").
  { intros Hk. rewrite (update_cell _ _ _ _ _ _ _ _ _ _ Hold Hupd Hc1).
    by apply update_value_frame. }
  assert (B2 : kw2 !! "read_at" = None -> cell r2 "read_at" = cell old "read_at").
  { intros Hk. rewrite (update_cell _ _ _ _ _ _ _ _ _ _ Hold Hupd Hc2).
    by apply update_value_frame. }
  assert (C1 : cell r3 "is_read" = VBool true).
  { eapply update_cell_set; [exact Hmark|exact Hc1|].
    unfold set_value. by rewrite lookup_insert_eq. }
  assert (C2 : cell r3 "read_at" = VTime (now env3)).
  { eapply update_cell_set; [exact Hmark|exact Hc2|].
    unfold set_value. by rewrite lookup_insert_ne, lookup_singleton_eq. }
  split; [|split].
  - split; [exact A1|]. split; [|split; [exact A3|]].
    + intros v Hk Hv. rewrite (insert_cell _ _ _ _ _ _ _ _ Hins Hc1).
      by apply insert_value_given.
    + intros Hk1 Hk2. unfold read_consistent. rewrite (A1 Hk1), A3, Hk2.
      split; [discriminate|]. intros H. exfalso. apply H. reflexivity.
  - split; [exact B1|]. split; [exact B2|]. split; [|split; [|split]].
    + intros Hk1 Hk2. unfold read_consistent. rewrite (B1 Hk1), (B2 Hk2).
      intros H. exact H.
    + intros v Hk. rewrite (update_cell _ _ _ _ _ _ _ _ _ _ Hold Hupd Hc1).
      by apply update_value_named.
    + intros v Hk. rewrite (update_cell _ _ _ _ _ _ _ _ _ _ Hold Hupd Hc2).
      by apply update_value_named.
    + intros Hid b.
      destruct (single_update_accepted m s2 env2 id old "is_read" (VBool b) _
                  Hmeta Hold Hid Hc1 eq_refl eq_refl eq_refl eq_refl Htg Hplain)
        as (s' & r & Hu & Hg & Hv & Hframe).
      exists s', r. split; [exact Hu|]. split; [exact Hg|]. split; [exact Hv|].
      apply (Hframe "read_at" _ Hc2); [discriminate|reflexivity].
  - split; [exact C1|]. split; [exact C2|]. unfold read_consistent. rewrite C1, C2.
    split; [discriminate|reflexivity].
Qed.

(** C7, amended.  A lab result created without [is_critical] (or with
    [None]) is stored as not critical; a given flag is stored as given, and
    the status exactly as given; an update keeps each of the two columns
    it does not name and stores what it names, and an update of the flag
    alone is accepted on every stored lab result, whatever its status. *)
Theorem critical_flag_by_default s env kw s1 r1 s2 env2 id kw2 old s3 r2 :
  insert LabResult s env kw = inr (s1, r1) ->
  get LabResult s2 id = Some old -> update LabResult s2 env2 id kw2 = inr (s3, r2) ->
  ((cell kw "is_critical" = VNull ->
    cell r1 "is_critical" = VBool false /\ critical_consistent r1) /\
   (forall v, kw !! "is_critical" = Some v -> is_null v = false ->
      cell r1 "is_critical" = v) /\
   cell r1 "status" = cell kw "status") /\
  ((kw2 !! "is_critical" = None -> cell r2 "is_critical" = cell old "is_critical") /\
   (kw2 !! "status" = None -> cell r2 "status" = cell old "status") /\
   (kw2 !! "is_critical" = None -> kw2 !! "status" = None ->
    critical_consistent old -> critical_consistent r2) /\
   (forall v, kw2 !! "is_critical" = Some v -> cell r2 "is_critical" = v) /\
   (forall v, kw2 !! "status" = Some v -> cell r2 "status" = v) /\
   (identity LabResult old = Some id -> forall b,
      exists s' r, update LabResult s2 env2 id {["is_critical" := VBool b]} = inr (s', r) /\
        get LabResult s' id = Some r /\ cell r "is_critical" = VBool b /\
        cell r "status" = cell old "status")).
Proof.
  intros Hins Hold Hupd.
  assert (Hc1 : column LabResult "is_critical"
                = Some (Column_ Boolean [default (Const (VBool false))])) by reflexivity.
  assert (Hc2 : column LabResult "status" = Some (Column_ (String_ 20) [])) by reflexivity.
  assert (A1 : cell kw "is_critical" = VNull -> cell r1 "is_critical" = VBool false).
  { intros Hk. rewrite (insert_cell _ _ _ _ _ _ _ _ Hins Hc1).
    rewrite insert_value_omitted; first [assumption | reflexivity]. }
  assert (B1 : kw2 !! "is_critical" = None ->
               cell r2 "is_critical" = cell old "is_critical").
  { intros Hk. rewrite (update_cell _ _ _ _ _ _ _ _ _ _ Hold Hupd Hc1).
    by apply update_value_frame. }
  assert (B2 : kw2 !! "status" = None -> cell r2 "status" = cell old "status").
  { intros Hk. rewrite (update_cell _ _ _ _ _ _ _ _ _ _ Hold Hupd Hc2).
    by apply update_value_frame. }
  split.
  - split; [|split].
    + intros Hk. split; [exact (A1 Hk)|]. unfold critical_consistent.
      rewrite (A1 Hk). discriminate.
    + intros v Hk Hv. rewrite (insert_cell _ _ _ _ _ _ _ _ Hins Hc1).
      by apply insert_value_given.
    + rewrite (insert_cell _ _ _ _ _ _ _ _ Hins Hc2). by apply insert_value_plain.
  - split; [exact B1|]. split; [exact B2|]. split; [|split; [|split]].
    + intros Hk1 Hk2. unfold critical_consistent. rewrite (B1 Hk1), (B2 Hk2).
      intros H. exact H.
    + intros v Hk. rewrite (update_cell _ _ _ _ _ _ _ _ _ _ Hold Hupd Hc1).
      by apply update_value_named.
    + intros v Hk. rewrite (update_cell _ _ _ _ _ _ _ _ _ _ Hold Hupd Hc2).
      by apply update_value_named.
    + intros Hid b.
      destruct (single_update_accepted LabResult s2 env2 id old "is_critical" (VBool b) _
                  (list_elem_of_further _ _ _ (list_elem_of_further _ _ _
                     (list_elem_of_further _ _ _ (list_elem_of_here _ _))))
                  Hold Hid Hc1 eq_refl eq_refl eq_refl eq_refl)
        as (s' & r & Hu & Hg & Hv & Hframe); [vm_compute; reflexivity..|].
      exists s', r. split; [exact Hu|]. split; [exact Hg|]. split; [exact Hv|].
      apply (Hframe "status" _ Hc2); [discriminate|reflexivity].
Qed.

(** C8, amended.  An appointment created without a duration (or with
    [None]) is stored with 30 minutes; a given duration is stored as
    given, and is positive after the create exactly when the given one
    is; an update keeps the duration it does not name and stores the one
    it names, positive exactly when the named one is, and an update to
    any 32-bit integer, zero and negative ones included, is accepted on
    every stored appointment. *)
Theorem duration_by_default s env kw s1 r1 s2 env2 id kw2 old s3 r2 :
  insert Appointment s env kw = inr (s1, r1) ->
  get Appointment s2 id = Some old -> update Appointment s2 env2 id kw2 = inr (s3, r2) ->
  ((cell kw "duration_minutes" = VNull ->
    cell r1 "duration_minutes" = VInt 30 /\ positive_duration r1) /\
   (forall v, kw !! "duration_minutes" = Some v -> is_null v = false ->
      cell r1 "duration_minutes" = v /\
      (positive_duration r1 <-> exists d, v = VInt d /\ 0 < d))) /\
  ((kw2 !! "duration_minutes" = None ->
    cell r2 "duration_minutes" = cell old "duration_minutes" /\
    (positive_duration old -> positive_duration r2)) /\
   (forall v, kw2 !! "duration_minutes" = Some v ->
      cell r2 "duration_minutes" = v /\
      (positive_duration r2 <-> exists d, v = VInt d /\ 0 < d)) /\
   (identity Appointment old = Some id ->
    forall d, -2147483648 <= d <= 2147483647 ->
      exists s' r,
        update Appointment s2 env2 id {["duration_minutes" := VInt d]} = inr (s', r) /\
        get Appointment s' id = Some r /\ cell r "duration_minutes" = VInt d)).
Proof.
  intros Hins Hold Hupd.
  assert (Hc : column Appointment "duration_minutes"
               = Some (Column_ Integer [default (Const (VInt 30))])) by reflexivity.
  split.
  - split.
    + intros Hk.
      assert (A1 : cell r1 "duration_minutes" = VInt 30).
      { rewrite (insert_cell _ _ _ _ _ _ _ _ Hins Hc).
        rewrite insert_value_omitted; first [assumption | reflexivity]. }
      split; [exact A1|]. exists 30. split; [exact A1|lia].
    + intros v Hk Hv.
      assert (A2 : cell r1 "duration_minutes" = v).
      { rewrite (insert_cell _ _ _ _ _ _ _ _ Hins Hc). by apply insert_value_given. }
      split; [exact A2|]. unfold positive_duration. rewrite A2. reflexivity.
  - split; [|split].
    + intros Hk.
      assert (B1 : cell r2 "duration_minutes" = cell old "duration_minutes").
      { rewrite (update_cell _ _ _ _ _ _ _ _ _ _ Hold Hupd Hc).
        by apply update_value_frame. }
      split; [exact B1|]. unfold positive_duration. rewrite B1. intros H. exact H.
    + intros v Hk.
      assert (B2 : cell r2 "duration_minutes" = v).
      { rewrite (update_cell _ _ _ _ _ _ _ _ _ _ Hold Hupd Hc). by apply update_value_named. }
      split; [exact B2|]. unfold positive_duration. rewrite B2. reflexivity.
    + intros Hid d [Hlo Hhi].
      destruct (single_update_accepted Appointment s2 env2 id old "duration_minutes"
                  (VInt d) _
                  (list_elem_of_further _ _ _ (list_elem_of_further _ _ _
                     (list_elem_of_here _ _)))
                  Hold Hid Hc eq_refl)
        as (s' & r & Hu & Hg & Hv & _); [|reflexivity|reflexivity|vm_compute; reflexivity..|].
      { cbn [has_type col_type Column_]. apply andb_true_intro.
        split; apply Z.leb_le; assumption. }
      exists s', r. split; [exact Hu|]. split; [exact Hg|exact Hv].
Qed.

End Claims.

(* ===================================================================== *)
(** ** The properties at the sample clinic                                *)
(* ===================================================================== *)

Section Instances.
Import Models Session Invariants.

Ltac run := vm_compute; reflexivity.
Ltac ran := apply outcome; run.
Ltac created := eexists; apply (outcome _ ∅); run.

(** C3 at the sample clinic: a second patient with the email of patient 1
    is refused with a [ConflictError] and the store stays as it was. *)
Lemma duplicate_patient_conflict_witness :
  Store.create Patient Sample.s1 (mkEnv 2000 9) Sample.patient_kw
  = (Sample.s1, inl Store.ConflictError).
Proof.
  refine (proj1 (proj2 (duplicate_patient_conflict
            Sample.s1 (mkEnv 2000 9) Sample.patient_kw 1 Sample.patient_row "a@x.com" _ _)) _).
  - apply (insert_get Patient ∅ (mkEnv 1000 1) Sample.patient_kw); [ran|run].
  - left. split; run.
  - run.
Defined.

(** C10 at the sample clinic: appointment 3. *)
Lemma appointment_defaults_witness :
  cell Sample.appointment_row "status" = VStr "scheduled" /\
  cell Sample.appointment_row "duration_minutes" = VInt 30 /\
  exists u, identity Appointment Sample.appointment_row = Some u /\
            get Appointment Sample.s3 u = Some Sample.appointment_row.
Proof.
  apply (appointment_defaults Sample.s2 (mkEnv 1002 3) Sample.appointment_kw
           Sample.s3 Sample.appointment_row); [ran|run|run].
Defined.



(** C9 at the sample clinic: alert 6 gets a new title. *)
Lemma health_alert_update_frame_witness :
  Sample.title_row !! "updated_at" = None /\
  (forall n, n ∈ column_names HealthAlert -> Sample.title_kw !! n = None ->
     cell Sample.title_row n = cell Sample.alert_row n).
Proof.
  refine (proj2 (proj2 (proj2 (health_alert_update_frame
            Sample.s6 (mkEnv 2000 0) 6 Sample.title_kw Sample.alert_row
            Sample.s6_title Sample.title_row _ _)))).
  - apply (insert_get HealthAlert Sample.s2 (mkEnv 1005 6) Sample.alert_kw); [ran|run].
  - ran.
Defined.

(** C5 (amended) at the sample clinic: the completed appointment 3 goes
    back to scheduled. *)
Lemma status_update_unrestricted_witness :
  exists s' r,
    Store.transition Appointment Sample.s3_completed (mkEnv 2000 0) 3 "scheduled"
    = (s', inr r) /\
    cell r "status" = VStr "scheduled" /\
    get Appointment s' 3 = Some r.
Proof.
  apply (status_update_unrestricted Sample.s3_completed (mkEnv 2000 0) 3
           Sample.completed_row "scheduled").
  - split; [|run].
    apply (insert_get Appointment Sample.s2 (mkEnv 1002 3) Sample.completed_kw); [ran|run].
  - vm_compute. lia.
Defined.

(** C5 as stated fails: the completed appointment 3 is put back to
    scheduled, and no [ValidationError] is raised. *)
Lemma completed_to_scheduled_counterexample :
  cell Sample.completed_row "status" = VStr "completed" /\
  get Appointment Sample.s3_completed 3 = Some Sample.completed_row /\
  Sample.rescheduled = (Sample.rescheduled.1, inr (Sample.row_in Sample.rescheduled)) /\
  cell (Sample.row_in Sample.rescheduled) "status" = VStr "scheduled" /\
  Sample.rescheduled <> (Sample.s3_completed, inl Store.ValidationError).
Proof.
  split; [run|]. split; [|split; [|split]].
  - apply (insert_get Appointment Sample.s2 (mkEnv 1002 3) Sample.completed_kw); [ran|run].
  - apply store_outcome. run.
  - run.
  - intros H. apply (f_equal (fun res => Sample.succeeded res.2)) in H.
    vm_compute in H. discriminate H.
Qed.

(** C4 (amended) at the sample clinic: message 4 is created, retitled and
    marked read, and its flag can be raised alone. *)
Lemma read_flag_by_default_witness :
  read_consistent Sample.message_row /\
  (read_consistent Sample.message_row -> read_consistent Sample.subject_row) /\
  read_consistent (Sample.row_in Sample.marked) /\
  (exists s' r,
     update Message Sample.s4 (mkEnv 2000 0) 4 {["is_read" := VBool true]} = inr (s', r) /\
     get Message s' 4 = Some r /\ cell r "is_read" = VBool true /\
     cell r "read_at" = cell Sample.message_row "read_at").
Proof.
  destruct (read_flag_by_default Message
    Sample.s2 (mkEnv 1003 4) Sample.message_kw Sample.s4 Sample.message_row
    Sample.s4 (mkEnv 2000 0) 4 Sample.subject_kw Sample.message_row
    Sample.s4_subject Sample.subject_row
    Sample.s4 (mkEnv 2001 0) 4 Sample.marked.1 (Sample.row_in Sample.marked))
    as ((_ & _ & _ & H1) & (_ & _ & H2 & _ & _ & H4) & (_ & _ & H3)).
  - left. reflexivity.
  - ran.
  - apply (insert_get Message Sample.s2 (mkEnv 1003 4) Sample.message_kw); [ran|run].
  - ran.
  - apply (store_outcome Sample.marked). run.
  - split; [apply H1; run|]. split; [apply H2; run|]. split; [exact H3|].
    apply H4. run.
Defined.

(** C4 as stated fails: a message created with the read flag set and no
    read timestamp is stored as given, and so is the flag raised alone by
    an update of the unread message 4. *)
Lemma read_flag_counterexample :
  ((exists s', insert Message Sample.s2 (mkEnv 1003 4) Sample.read_message_kw
               = inr (s', Sample.read_message_row)) /\
   cell Sample.read_message_row "is_read" = VBool true /\
   cell Sample.read_message_row "read_at" = VNull /\
   ~ read_consistent Sample.read_message_row) /\
  ((exists s', update Message Sample.s4 (mkEnv 2000 0) 4 Sample.flag_kw
               = inr (s', Sample.flagged_row)) /\
   cell Sample.flagged_row "is_read" = VBool true /\
   cell Sample.flagged_row "read_at" = VNull /\
   ~ read_consistent Sample.flagged_row).
Proof.
  split; (split; [created|]); (split; [run|]); (split; [run|]);
    intros [H _]; apply H; run.
Qed.

(** C7 (amended) at the sample clinic: lab result 5 is created and
    annotated, and its flag can be raised alone. *)
Lemma critical_flag_by_default_witness :
  (cell Sample.lab_row "is_critical" = VBool false /\ critical_consistent Sample.lab_row) /\
  cell Sample.lab_row "status" = VStr "normal" /\
  (cell Sample.notes_row "is_critical" = cell Sample.lab_row "is_critical" /\
   cell Sample.notes_row "status" = cell Sample.lab_row "status" /\
   (critical_consistent Sample.lab_row -> critical_consistent Sample.notes_row)) /\
  (exists s' r,
     update LabResult Sample.s5 (mkEnv 2000 0) 5 {["is_critical" := VBool true]}
     = inr (s', r) /\
     get LabResult s' 5 = Some r /\ cell r "is_critical" = VBool true /\
     cell r "status" = cell Sample.lab_row "status").
Proof.
  destruct (critical_flag_by_default Sample.s2 (mkEnv 1004 5) Sample.lab_kw Sample.s5
              Sample.lab_row Sample.s5 (mkEnv 2000 0) 5 Sample.notes_kw Sample.lab_row
              Sample.s5_notes Sample.notes_row)
    as ((H1 & _ & H2) & (H3 & H4 & H5 & _ & _ & H6)).
  - ran.
  - apply (insert_get LabResult Sample.s2 (mkEnv 1004 5) Sample.lab_kw); [ran|run].
  - ran.
  - split; [apply H1; run|]. split; [rewrite H2; run|].
    split; [split; [apply H3; run|split; [apply H4; run|apply H5; run]]|].
    apply H6. run.
Defined.

(** C7 as stated fails: a lab result created critical with status normal
    is stored as given, and so is the flag raised alone by an update of
    the normal lab result 5. *)
Lemma critical_flag_counterexample :
  ((exists s', insert LabResult Sample.s2 (mkEnv 1004 5) Sample.critical_normal_kw
               = inr (s', Sample.critical_normal_row)) /\
   cell Sample.critical_normal_row "is_critical" = VBool true /\
   cell Sample.critical_normal_row "status" = VStr "normal" /\
   ~ critical_consistent Sample.critical_normal_row) /\
  ((exists s', update LabResult Sample.s5 (mkEnv 2000 0) 5 Sample.critical_kw
               = inr (s', Sample.made_critical_row)) /\
   cell Sample.made_critical_row "is_critical" = VBool true /\
   cell Sample.made_critical_row "status" = VStr "normal" /\
   ~ critical_consistent Sample.made_critical_row).
Proof.
  split; (split; [created|]); (split; [run|]); (split; [run|]);
    intros H; (destruct H as [H|H]; [run| |]); vm_compute in H; discriminate H.
Qed.

(** C8 (amended) at the sample clinic: appointment 3 is created and given
    a room, and its duration can be set to zero. *)
Lemma duration_by_default_witness :
  (cell Sample.appointment_row "duration_minutes" = VInt 30 /\
   positive_duration Sample.appointment_row) /\
  (cell Sample.location_row "duration_minutes"
   = cell Sample.appointment_row "duration_minutes" /\
   (positive_duration Sample.appointment_row -> positive_duration Sample.location_row)) /\
  (exists s' r,
     update Appointment Sample.s3 (mkEnv 2000 0) 3 {["duration_minutes" := VInt 0]}
     = inr (s', r) /\
     get Appointment s' 3 = Some r /\ cell r "duration_minutes" = VInt 0).
Proof.
  destruct (duration_by_default Sample.s2 (mkEnv 1002 3) Sample.appointment_kw Sample.s3
              Sample.appointment_row Sample.s3 (mkEnv 2000 0) 3 Sample.location_kw
              Sample.appointment_row Sample.s3_location Sample.location_row)
    as ((H1 & _) & (H2 & _ & H3)).
  - ran.
  - apply (insert_get Appointment Sample.s2 (mkEnv 1002 3) Sample.appointment_kw); [ran|run].
  - ran.
  - split; [apply H1; run|]. split; [apply H2; run|]. apply H3; [run|lia].
Defined.

(** C8 as stated fails: an appointment created with a duration of zero
    minutes is stored as given, and so is the duration of minus fifteen
    minutes an update gives appointment 3. *)
Lemma duration_counterexample :
  ((exists s', insert Appointment Sample.s2 (mkEnv 1002 3) Sample.zero_duration_kw
               = inr (s', Sample.zero_duration_row)) /\
   cell Sample.zero_duration_row "duration_minutes" = VInt 0 /\
   ~ positive_duration Sample.zero_duration_row) /\
  ((exists s', update Appointment Sample.s3 (mkEnv 2000 0) 3 Sample.negative_kw
               = inr (s', Sample.negative_row)) /\
   cell Sample.negative_row "duration_minutes" = VInt (-15) /\
   ~ positive_duration Sample.negative_row).
Proof.
  split; (split; [created|]); (split; [run|]);
    intros (d & Hd & Hpos); vm_compute in Hd; injection Hd as <-; lia.
Qed.

End Instances.

(* ===================================================================== *)
(** ** Further properties of [app/main.py]                                *)
(* ===================================================================== *)

Section MiddlewareFacts.
Import Main Middleware.

Lemma remove_header_get k k' l :
  assoc_get k' (remove_header k l) = if String.eqb k' k then None else assoc_get k' l.
Proof.
  induction l as [|[a v] l IH]; cbn.
  - by destruct (String.eqb k' k).
  - destruct (String.eqb_spec a k) as [->|Hak].
    + rewrite IH. by destruct (String.eqb_spec k' k) as [->|Hk].
    + cbn. rewrite IH. destruct (String.eqb_spec k' a) as [->|Hka]; [|done].
      by rewrite (proj2 (String.eqb_neq a k) Hak).
Qed.

Lemma replace_header_get k v k' l :
  assoc_get k' (replace_header k v l) = if String.eqb k' k then Some v else assoc_get k' l.
Proof.
  induction l as [|[a w] l IH]; cbn.
  - by destruct (String.eqb k' k).
  - destruct (String.eqb_spec a k) as [->|Hak]; cbn.
    + rewrite remove_header_get. by destruct (String.eqb k' k).
    + rewrite IH. destruct (String.eqb_spec k' a) as [->|Hka]; [|done].
      by rewrite (proj2 (String.eqb_neq a k) Hak).
Qed.

(** After [headers[key] = value] the list holds the name once. *)
Lemma replace_header_once k v l :
  length (filter (fun kv => kv.1 = k) (replace_header k v l)) = 1%nat.
Proof.
  assert (Hrm : forall l', filter (fun kv : string * string => kv.1 = k) (remove_header k l') = []).
  { induction l' as [|[a w] l' IH]; cbn [remove_header]; [done|].
    destruct (String.eqb_spec a k) as [->|Hak]; [exact IH|].
    rewrite filter_cons_False by done. exact IH. }
  induction l as [|[a w] l IH]; cbn [replace_header].
  { by rewrite filter_cons_True, filter_nil. }
  destruct (String.eqb_spec a k) as [->|Hak].
  - rewrite filter_cons_True by done. cbn. by rewrite Hrm.
  - rewrite filter_cons_False by done. exact IH.
Qed.

Lemma set_header_get key value name r :
  response_header name (set_header key value r)
  = if String.eqb (lower name) (lower key) then Some value else response_header name r.
Proof. apply replace_header_get. Qed.

(** X1.  Whatever the application answers, [log_requests] hands on its
    status and body untouched, puts the request id (the request's
    X-Request-ID header, or "unknown") and the elapsed time on the
    response under exactly one header each, and keeps every other
    header. *)
Theorem log_requests_response
    (str : float -> string) (round4 : float -> float)
    (conn : Connection) (start_time end_time : float)
    (call_next : Connection -> list log_record * Response) :
  let inner := (call_next conn).2 in
  let out := (log_requests str round4 conn start_time end_time call_next).2 in
  payload out = payload inner /\
  response_header "X-Request-ID" out
    = Some (headers_get (request conn) "X-Request-ID" "unknown") /\
  response_header "X-Process-Time" out = Some (str (end_time - start_time)%float) /\
  length (filter (fun kv => kv.1 = "x-request-id") (raw_headers out)) = 1%nat /\
  (forall name, lower name <> "x-request-id" -> lower name <> "x-process-time" ->
     response_header name out = response_header name inner).
Proof.
  unfold log_requests. destruct (call_next conn) as [logs response]. cbn [snd].
  split; [reflexivity|]. split; [|split; [|split]].
  - by rewrite set_header_get.
  - by rewrite !set_header_get.
  - apply replace_header_once.
  - intros name H1 H2. rewrite !set_header_get.
    change (lower "X-Request-ID") with "x-request-id".
    change (lower "X-Process-Time") with "x-process-time".
    by rewrite (proj2 (String.eqb_neq _ _) H1), (proj2 (String.eqb_neq _ _) H2).
Qed.

(** X2.  When a route raises a [PatientPortalException] or a request
    validation error, the request id in the [meta] member of the error
    body is the one [log_requests] puts in the X-Request-ID header of the
    response: the header of the request if it has one, else "unknown". *)
Theorem request_id_correlates
    (str : float -> string) (round4 : float -> float)
    (conn : Connection) (start_time end_time now : float) (e : handled)
    (response_headers : list (string * string)) :
  let out := (log_requests str round4 conn start_time end_time
                (raising now e response_headers)).2 in
  exists rid m,
    response_header "X-Request-ID" out = Some rid /\
    json_get "meta" (content (payload out)) = Some m /\
    json_get "request_id" m = Some (JString rid) /\
    rid = match assoc_get "x-request-id" (headers (request conn)) with
          | Some v => v
          | None => "unknown"
          end.
Proof.
  cbn zeta. unfold log_requests, raising.
  destruct (handle_exception (request conn) now (raised_of e)) as [logs r] eqn:He.
  cbn [snd].
  exists (headers_get (request conn) "X-Request-ID" "unknown"), (meta (request conn) now).
  split; [by rewrite set_header_get|]. split; [|split; reflexivity].
  cbn [payload set_header].
  replace r with (handle_exception (request conn) now (raised_of e)).2 by (by rewrite He).
  by destruct e.
Qed.

(** X3.  The envelope of a [PatientPortalException] loses nothing: status,
    code, message and details can be read back from the response. *)
Theorem portal_exception_round_trip
    (request : Request) (now : float) (exc : PatientPortalException) :
  decode_error (handle_exception request now (RaisedPortal exc)).2 = Some exc.
Proof. by destruct exc. Qed.

(** X4.  The interactive documentation is switched off exactly when the
    environment is the string "production", for both pages alike, and
    [root] advertises the documentation URL exactly when it is served. *)
Theorem docs_only_outside_production (environment : string) (now : float) :
  (docs_url environment = None <-> environment = "production") /\
  (redoc_url environment = None <-> environment = "production") /\
  (exists data,
     json_get "data" (root environment now) = Some data /\
     json_get "docs_url" data
       = Some (match docs_url environment with
               | Some u => JString u
               | None => JNull
               end)) /\
  json_get "success" (root environment now) = Some (JBool true).
Proof.
  unfold docs_url, redoc_url, root.
  destruct (String.eqb_spec environment "production") as [->|Hne]; cbn.
  - repeat split; eauto.
  - repeat split; try done. eauto.
Qed.

End MiddlewareFacts.

(* ===================================================================== *)
(** ** Further properties of the declarations                             *)
(* ===================================================================== *)

Section SchemaFacts.
Import Models Relationships.

Ltac each_model H :=
  unfold metadata in H;
  repeat (apply elem_of_cons in H as [->|H]); [..|by apply elem_of_nil in H].

Lemma tablename_inj m m' :
  m ∈ metadata -> m' ∈ metadata -> tablename m = tablename m' -> m = m'.
Proof.
  intros Hm Hm'. each_model Hm; each_model Hm'; intros Ht;
    first [reflexivity | discriminate Ht].
Qed.

Lemma table_of_metadata m : m ∈ metadata -> table_of (tablename m) = Some m.
Proof. intros Hm. each_model Hm; reflexivity. Qed.

(** Every model keys its rows by the one column [id], a UUID drawn by
    [uuid.uuid4] when the caller gives none. *)
Lemma primary_key_column m :
  m ∈ metadata ->
  List.find (fun nc => col_primary_key nc.2) (columns m)
  = Some ("id", Column_ (UUID true) [primary_key true; default uuid_uuid4]) /\
  column m "id" = Some (Column_ (UUID true) [primary_key true; default uuid_uuid4]).
Proof. intros Hm. each_model Hm; split; reflexivity. Qed.

(** Every foreign key of the schema names the primary key of another
    table of the schema. *)
Lemma foreign_key_target m n c fk :
  m ∈ metadata -> (n, c) ∈ columns m -> col_foreign_key c = Some fk ->
  exists m', m' ∈ metadata /\ tablename m' = fk_table fk /\
    tablename m' <> tablename m /\ fk_column fk = "id" /\ col_type c = UUID true.
Proof.
  intros Hm Hin Hfk.
  assert (H : (fk_table fk = "patients" \/ fk_table fk = "providers") /\
              fk_table fk <> tablename m /\ fk_column fk = "id" /\ col_type c = UUID true).
  { each_model Hm; cbn [columns Patient Provider Appointment LabResult Medication
                        Message HealthAlert] in Hin;
      repeat (apply elem_of_cons in Hin as [[= -> ->]|Hin]; [cbn in Hfk; try discriminate Hfk;
                injection Hfk as <-; cbn; repeat split; auto; discriminate|]);
      by apply elem_of_nil in Hin. }
  destruct H as ([Ht|Ht] & Hne & Hc & Hty).
  - exists Patient. rewrite Ht in *. repeat split; auto. apply list_elem_of_here.
  - exists Provider. rewrite Ht in *. repeat split; auto.
    apply list_elem_of_further, list_elem_of_here.
Qed.

(** X5.  The schema is closed: table names are distinct, so are the
    column names of each model, every model has the single primary key
    [id] (a UUID with default [uuid.uuid4]), and every foreign key points
    at the primary key of another table of the schema, of the type of the
    referring column. *)
Theorem schema_is_closed :
  NoDup (tablename <$> metadata) /\
  (forall m, m ∈ metadata ->
     NoDup (column_names m) /\
     filter (fun nc => col_primary_key nc.2 = true) (columns m)
       = [("id", Column_ (UUID true) [primary_key true; default uuid_uuid4])]) /\
  (forall m n c fk, m ∈ metadata -> column m n = Some c -> col_foreign_key c = Some fk ->
     exists m' c', table_of (fk_table fk) = Some m' /\ m' ∈ metadata /\ m' <> m /\
       column m' (fk_column fk) = Some c' /\ col_primary_key c' = true /\
       sqltype_eqb (col_type c) (col_type c') = true).
Proof.
  split; [|split].
  - apply (bool_decide_unpack _). vm_compute. exact I.
  - intros m Hm. split.
    + each_model Hm; apply (bool_decide_unpack _); vm_compute; exact I.
    + each_model Hm; reflexivity.
  - intros m n c fk Hm Hc Hfk.
    destruct (foreign_key_target m n c fk Hm (column_In _ _ _ Hc) Hfk)
      as (m' & Hm' & Ht & Hne & Hcol & Hty).
    destruct (primary_key_column m' Hm') as [_ Hid].
    exists m', (Column_ (UUID true) [primary_key true; default uuid_uuid4]).
    rewrite <- Ht, Hcol, Hty. repeat split; auto.
    + by apply table_of_metadata.
    + intros ->. by apply Hne.
Qed.

(** X6.  The relationships pair up: for every relationship attribute of a
    class, the target class is mapped and declares the attribute named by
    [back_populates] as a relationship back to the first class, itself
    back-populated by the first attribute; and one of the two tables holds
    a foreign key into the other. *)
Theorem relationships_pair_up (k : Mapped) (attr : string) (r : relationship) :
  k ∈ classes -> (attr, r) ∈ relationships k ->
  exists k', class_of (target r) = Some k' /\ k' ∈ classes /\
    assoc_get (back_populates r) (relationships k')
      = Some (mkRelationship (class_name k) attr) /\
    xorb (references (model k) (model k')) (references (model k') (model k)) = true.
Proof.
  intros Hk Hr. unfold classes in Hk.
  repeat (apply elem_of_cons in Hk as [->|Hk];
    [cbn [relationships] in Hr;
     repeat (apply elem_of_cons in Hr as [[= -> ->]|Hr];
       [eexists; split; [reflexivity|]; split;
          [unfold classes; repeat first [apply list_elem_of_here | apply list_elem_of_further]
          |split; reflexivity]|]);
     by apply elem_of_nil in Hr|]).
  by apply elem_of_nil in Hk.
Qed.

End SchemaFacts.

(* ===================================================================== *)
(** ** Further properties of the unit of work                             *)
(* ===================================================================== *)

Section IntegrityFacts.
Import Models Session Integrity.

Lemma first_error_None_inv {A : Type} (chk : A -> option db_error) l x :
  first_error chk l = None -> x ∈ l -> chk x = None.
Proof.
  induction l as [|a l IH]; [by intros _ ?%elem_of_nil|].
  cbn. destruct (chk a) eqn:Ha; [discriminate|].
  intros Hl [->|Hx]%elem_of_cons; auto.
Qed.

Lemma existsb_false_elem {A : Type} (f : A -> bool) l x :
  existsb f l = false -> x ∈ l -> f x = false.
Proof.
  intros Hf Hx. destruct (f x) eqn:Hfx; [|reflexivity].
  by rewrite (existsb_elem f l x Hx Hfx) in Hf.
Qed.

Lemma existsb_true_elem {A : Type} (f : A -> bool) l :
  existsb f l = true -> exists x, x ∈ l /\ f x = true.
Proof.
  intros (x & Hx & Hf)%existsb_exists. exists x. by rewrite list_elem_of_In.
Qed.

Lemma rows_elem_inv (tb : table) r : r ∈ rows tb -> exists id, tb !! id = Some r.
Proof.
  unfold rows. intros ([id r'] & -> & Hin)%list_elem_of_fmap.
  exists id. by apply elem_of_map_to_list.
Qed.

Lemma value_eqb_sym v w : value_eqb v w = value_eqb w v.
Proof.
  destruct v, w; cbn; try reflexivity.
  - apply String.eqb_sym.
  - apply Z.eqb_sym.
  - apply Z.eqb_sym.
  - by destruct b, b0.
  - apply Z.eqb_sym.
  - apply Z.eqb_sym.
  - apply N.eqb_sym.
Qed.

Lemma value_eqb_eq v w : value_eqb v w = true -> v = w.
Proof.
  destruct v, w; cbn; try discriminate.
  - by intros ->%String.eqb_eq.
  - by intros ->%Z.eqb_eq.
  - by intros ->%Z.eqb_eq.
  - by intros ->%Bool.eqb_prop.
  - by intros ->%Z.eqb_eq.
  - by intros ->%Z.eqb_eq.
  - by intros ->%N.eqb_eq.
Qed.

(** *** What a passed check says about a column *)

Lemma check_types_ok written m r n c :
  check_types written m r = None -> (n, c) ∈ columns m -> written n c = true ->
  has_type (col_type c) (cell r n) = true.
Proof.
  intros H Hin Hw. apply (first_error_None_inv _ _ _ H) in Hin. cbn [fst snd] in Hin.
  rewrite Hw in Hin. cbn in Hin. by destruct (has_type (col_type c) (cell r n)).
Qed.

Lemma check_not_null_ok written m r n c :
  check_not_null written m r = None -> (n, c) ∈ columns m -> written n c = true ->
  col_nullable c = false -> is_null (cell r n) = false.
Proof.
  intros H Hin Hw Hn. apply (first_error_None_inv _ _ _ H) in Hin. cbn [fst snd] in Hin.
  rewrite Hw, Hn in Hin. cbn in Hin. by destruct (is_null (cell r n)).
Qed.

Lemma check_unique_ok written m r tb n c id0 r0 :
  check_unique written m r tb = None -> (n, c) ∈ columns m -> written n c = true ->
  (col_primary_key c || col_unique c) = true -> tb !! id0 = Some r0 ->
  value_eqb (cell r0 n) (cell r n) = false.
Proof.
  intros H Hin Hw Hu Hr0. apply (first_error_None_inv _ _ _ H) in Hin.
  cbn [fst snd] in Hin. rewrite Hw, Hu in Hin. cbn [andb] in Hin.
  destruct (existsb _ (rows tb)) eqn:Hex; [discriminate|].
  exact (existsb_false_elem _ _ r0 Hex (rows_elem _ _ _ Hr0)).
Qed.

Lemma check_foreign_keys_ok written m r s n c fk :
  check_foreign_keys written m r s = None -> (n, c) ∈ columns m -> written n c = true ->
  col_foreign_key c = Some fk -> is_null (cell r n) = false ->
  exists id' r', get_table s (fk_table fk) !! id' = Some r' /\
    value_eqb (cell r' (fk_column fk)) (cell r n) = true.
Proof.
  intros H Hin Hw Hfk Hnn. apply (first_error_None_inv _ _ _ H) in Hin.
  cbn [fst snd] in Hin. rewrite Hfk, Hw, Hnn in Hin. cbn [andb negb] in Hin.
  destruct (existsb _ (rows _)) eqn:Hex; [|discriminate].
  apply existsb_true_elem in Hex as (r' & Hr' & Heq).
  apply rows_elem_inv in Hr' as [id' Hid']. eauto.
Qed.

Lemma insert_checked m s env kw s' r :
  insert m s env kw = inr (s', r) ->
  valid_keywords m kw = true /\
  check_types every_column m r = None /\
  check_not_null every_column m r = None /\
  check_unique every_column m r (get_table s (tablename m)) = None /\
  check_foreign_keys every_column m r s = None.
Proof.
  intros H. pose proof (insert_inr _ _ _ _ _ _ H) as [-> _].
  revert H. unfold insert, ensure.
  destruct (valid_keywords m kw); [|discriminate]. cbn [negb].
  destruct (check_types _ _ _); [discriminate|].
  destruct (check_not_null _ _ _); [discriminate|].
  destruct (check_unique _ _ _ _); [discriminate|].
  destruct (check_foreign_keys _ _ _ _); [discriminate|]. done.
Qed.

Lemma update_checked m s env id kw s' r old :
  get m s id = Some old -> update m s env id kw = inr (s', r) ->
  valid_keywords m kw = true /\
  check_types (set_clause env kw) m r = None /\
  check_not_null (set_clause env kw) m r = None /\
  check_unique (set_clause env kw) m r (delete id (get_table s (tablename m))) = None /\
  check_foreign_keys (set_clause env kw) m r s = None /\
  check_referenced m s old r = None.
Proof.
  intros Hold H. pose proof (update_inr _ _ _ _ _ _ _ H) as (old' & Hold' & -> & _).
  rewrite Hold in Hold'. injection Hold' as <-.
  revert H. unfold update, ensure. unfold get in Hold. rewrite Hold.
  destruct (valid_keywords m kw); [|discriminate]. cbn [negb].
  destruct (check_types _ _ _); [discriminate|].
  destruct (check_not_null _ _ _); [discriminate|].
  destruct (check_unique _ _ _ _); [discriminate|].
  destruct (check_foreign_keys _ _ _ _); [discriminate|].
  destruct (check_referenced _ _ _ _); [discriminate|]. done.
Qed.

(** *** Looking into a store after one table was replaced *)

Lemma get_table_replaced (s : store) t tb t' :
  get_table (<[t := tb]> s) t' = if decide (t = t') then tb else get_table s t'.
Proof.
  unfold get_table. rewrite lookup_insert. by destruct (decide (t = t')).
Qed.

Lemma get_replaced m (s : store) t tb id :
  get m (<[t := tb]> s) id = if decide (t = tablename m) then tb !! id else get m s id.
Proof.
  unfold get. rewrite get_table_replaced. by destruct (decide (t = tablename m)).
Qed.

Lemma identity_id m r u :
  m ∈ metadata -> identity m r = Some u <-> cell r "id" = VUuid u.
Proof.
  intros Hm. unfold identity. destruct (primary_key_column m Hm) as [-> _].
  cbn [fst]. split.
  - destruct (cell r "id"); try discriminate. by intros [= ->].
  - by intros ->.
Qed.

Lemma referencing_hit s t n v m' n0 c0 fk0 id0 r0 :
  m' ∈ metadata -> (n0, c0) ∈ columns m' -> col_foreign_key c0 = Some fk0 ->
  fk_table fk0 = t -> fk_column fk0 = n -> get m' s id0 = Some r0 ->
  value_eqb (cell r0 n0) v = true -> referencing s t n v = true.
Proof.
  intros Hm' Hin Hfk Ht Hn Hget Heq. unfold referencing.
  apply (existsb_elem _ _ m' Hm'). apply (existsb_elem _ _ (n0, c0) Hin).
  cbn [fst snd]. rewrite Hfk, Ht, Hn, !String.eqb_refl. cbn [andb].
  apply (existsb_elem _ _ r0); [|exact Heq]. by eapply rows_elem.
Qed.

End IntegrityFacts.

Section IntegrityPreserved.
Import Models Session Integrity.

Lemma consistent_empty : consistent ∅.
Proof.
  assert (H : forall m id, get m ∅ id = None).
  { intros m id. unfold get, get_table. rewrite lookup_empty. apply lookup_empty. }
  split.
  - intros m id r _ Hg. by rewrite H in Hg.
  - intros m id r n c _ Hg. by rewrite H in Hg.
  - intros m id1 id2 r1 r2 n c _ Hg. by rewrite H in Hg.
  - intros m id r n c fk _ Hg. by rewrite H in Hg.
Qed.

(** *** INSERT *)

(** The key of the new row is not in use. *)
Lemma insert_fresh m s env kw s' r u :
  m ∈ metadata -> keyed s -> insert m s env kw = inr (s', r) ->
  identity m r = Some u -> get m s u = None.
Proof.
  intros Hm HK Hins Hu.
  destruct (insert_checked _ _ _ _ _ _ Hins) as (_ & _ & _ & Eun & _).
  destruct (get m s u) as [r0|] eqn:E; [exfalso|reflexivity].
  pose proof (HK m u r0 Hm E) as H0.
  apply (identity_id m _ _ Hm) in H0. apply (identity_id m _ _ Hm) in Hu.
  destruct (primary_key_column m Hm) as [_ Hid].
  pose proof (check_unique_ok _ _ _ _ "id" _ u r0 Eun (column_In _ _ _ Hid)
                eq_refl eq_refl E) as Hne.
  rewrite H0, Hu in Hne. cbn in Hne. by rewrite N.eqb_refl in Hne.
Qed.

(** The rows of the store after an INSERT: the new one and the old ones. *)
Lemma insert_rows m s env kw s' r :
  m ∈ metadata -> keyed s -> insert m s env kw = inr (s', r) ->
  exists u, identity m r = Some u /\
    (forall m' id' r0, m' ∈ metadata -> get m' s' id' = Some r0 ->
       (m' = m /\ id' = u /\ r0 = r) \/ get m' s id' = Some r0) /\
    (forall t id' r0, get_table s t !! id' = Some r0 -> get_table s' t !! id' = Some r0).
Proof.
  intros Hm HK Hins.
  destruct (insert_inr _ _ _ _ _ _ Hins) as (_ & u & Hu & Hs').
  pose proof (insert_fresh m s env kw s' r u Hm HK Hins Hu) as Hfresh.
  unfold get in Hfresh. exists u. split; [exact Hu|]. subst s'. split.
  - intros m' id' r0 Hm' Hg. rewrite get_replaced in Hg.
    destruct (decide (tablename m = tablename m')) as [Ht|Ht]; [|by right].
    apply (tablename_inj _ _ Hm Hm') in Ht as <-.
    rewrite lookup_insert in Hg. destruct (decide (u = id')) as [<-|Hne].
    + injection Hg as <-. by left.
    + by right.
  - intros t id' r0 Hg. rewrite get_table_replaced.
    destruct (decide (tablename m = t)) as [<-|Ht]; [|exact Hg].
    rewrite lookup_insert_ne; [exact Hg|]. intros <-. by rewrite Hfresh in Hg.
Qed.

Lemma insert_keyed m s env kw s' r :
  m ∈ metadata -> keyed s -> insert m s env kw = inr (s', r) -> keyed s'.
Proof.
  intros Hm HK Hins.
  destruct (insert_rows m s env kw s' r Hm HK Hins) as (u & Hu & Hrow & _).
  intros m' id' r0 Hm' Hg.
  destruct (Hrow m' id' r0 Hm' Hg) as [(-> & -> & ->)|Hg']; [exact Hu|by eapply HK].
Qed.

Lemma insert_typed m s env kw s' r :
  m ∈ metadata -> keyed s -> typed s -> insert m s env kw = inr (s', r) -> typed s'.
Proof.
  intros Hm HK HT Hins.
  destruct (insert_rows m s env kw s' r Hm HK Hins) as (u & Hu & Hrow & _).
  destruct (insert_checked _ _ _ _ _ _ Hins) as (_ & Ety & Enn & _).
  intros m' id' r0 n c Hm' Hg Hc.
  destruct (Hrow m' id' r0 Hm' Hg) as [(-> & -> & ->)|Hg']; [|by eapply HT].
  apply column_In in Hc. split.
  - by eapply check_types_ok.
  - by eapply check_not_null_ok.
Qed.

Lemma insert_unique m s env kw s' r :
  m ∈ metadata -> keyed s -> unique_columns s ->
  insert m s env kw = inr (s', r) -> unique_columns s'.
Proof.
  intros Hm HK HU Hins.
  destruct (insert_rows m s env kw s' r Hm HK Hins) as (u & Hu & Hrow & _).
  destruct (insert_checked _ _ _ _ _ _ Hins) as (_ & _ & _ & Eun & _).
  intros m' id1 id2 r1 r2 n c Hm' H1 H2 Hc Hpu Heq.
  destruct (Hrow m' id1 r1 Hm' H1) as [(-> & -> & ->)|H1'];
    destruct (Hrow _ id2 r2 Hm' H2) as [(E & -> & ->)|H2']; try reflexivity.
  - exfalso. apply column_In in Hc.
    pose proof (check_unique_ok _ _ _ _ n c id2 r2 Eun Hc eq_refl Hpu H2') as Hne.
    by rewrite value_eqb_sym, Heq in Hne.
  - exfalso. subst m'. apply column_In in Hc.
    pose proof (check_unique_ok _ _ _ _ n c id1 r1 Eun Hc eq_refl Hpu H1') as Hne.
    by rewrite Heq in Hne.
  - by eapply HU.
Qed.

Lemma insert_references m s env kw s' r :
  m ∈ metadata -> keyed s -> references_resolve s ->
  insert m s env kw = inr (s', r) -> references_resolve s'.
Proof.
  intros Hm HK HR Hins.
  destruct (insert_rows m s env kw s' r Hm HK Hins) as (u & Hu & Hrow & Hkeep).
  destruct (insert_checked _ _ _ _ _ _ Hins) as (_ & _ & _ & _ & Efk).
  intros m' id' r0 n c fk Hm' Hg Hc Hfk Hnn.
  assert (Hs : exists id'' r', get_table s (fk_table fk) !! id'' = Some r' /\
                 value_eqb (cell r' (fk_column fk)) (cell r0 n) = true).
  { destruct (Hrow m' id' r0 Hm' Hg) as [(-> & -> & ->)|Hg']; [|by eapply HR].
    apply column_In in Hc. by eapply check_foreign_keys_ok. }
  destruct Hs as (id'' & r' & Hr' & Heq). exists id'', r'. split; [by apply Hkeep|exact Heq].
Qed.

(** X7.  INSERT keeps the store consistent: a successful insert into any
    of the seven tables of a consistent store leaves every row under its
    primary key, every cell of its column's type, every NOT NULL column
    filled, every primary-key and unique column free of duplicates and
    every foreign key pointing at a stored row. *)
Theorem insert_keeps_integrity m s env kw s' r :
  m ∈ metadata -> consistent s -> insert m s env kw = inr (s', r) -> consistent s'.
Proof.
  intros Hm [HK HT HU HR] Hins. split.
  - by eapply insert_keyed.
  - by eapply insert_typed.
  - by eapply insert_unique.
  - by eapply insert_references.
Qed.

(** *** UPDATE *)

Lemma update_cell_cases m s env id kw s' r old n c :
  get m s id = Some old -> update m s env id kw = inr (s', r) -> column m n = Some c ->
  set_clause env kw n c = true \/ cell r n = cell old n.
Proof.
  intros Hold Hupd Hc. rewrite (update_cell _ _ _ _ _ _ _ _ _ _ Hold Hupd Hc).
  unfold update_value, set_clause. destruct (set_value env kw n c); auto.
Qed.

(** The rows of the store after an UPDATE: the new one, and the old ones
    but the one replaced. *)
Lemma update_rows m s env id kw s' r old :
  m ∈ metadata -> keyed s -> get m s id = Some old ->
  update m s env id kw = inr (s', r) ->
  exists u, identity m r = Some u /\ get m s' u = Some r /\
    (forall m' id' r0, m' ∈ metadata -> get m' s' id' = Some r0 ->
       (m' = m /\ id' = u /\ r0 = r) \/
       (get m' s id' = Some r0 /\ (m' = m -> id' <> id))) /\
    (forall t id' r0, get_table s t !! id' = Some r0 ->
       (t = tablename m -> id' <> id) -> get_table s' t !! id' = Some r0).
Proof.
  intros Hm HK Hold Hupd.
  destruct (update_inr _ _ _ _ _ _ _ Hupd) as (old' & Hold' & _ & u & Hu & Hs').
  rewrite Hold in Hold'. injection Hold' as <-.
  destruct (update_checked _ _ _ _ _ _ _ _ Hold Hupd) as (_ & _ & _ & Eun & _).
  destruct (primary_key_column m Hm) as [_ Hid].
  assert (Hfresh : delete id (get_table s (tablename m)) !! u = None).
  { destruct (decide (u = id)) as [->|Hne]; [apply lookup_delete_eq|].
    destruct (delete id (get_table s (tablename m)) !! u) as [r0|] eqn:E; [exfalso|done].
    pose proof E as E'. rewrite lookup_delete_ne in E' by done.
    pose proof (proj1 (identity_id m _ _ Hm) (HK m u r0 Hm E')) as H0.
    pose proof (proj1 (identity_id m _ _ Hm) (HK m id old Hm Hold)) as Ho.
    pose proof (proj1 (identity_id m _ _ Hm) Hu) as Hr.
    destruct (update_cell_cases _ _ _ _ _ _ _ _ _ _ Hold Hupd Hid) as [Hw|Hsame].
    - pose proof (check_unique_ok _ _ _ _ "id" _ u r0 Eun (column_In _ _ _ Hid)
                    Hw eq_refl E) as Hneq.
      rewrite H0, Hr in Hneq. cbn in Hneq. by rewrite N.eqb_refl in Hneq.
    - rewrite Hr, Ho in Hsame. by injection Hsame. }
  exists u. split; [exact Hu|]. subst s'. split; [apply get_stored|]. split.
  - intros m' id' r0 Hm' Hg. rewrite get_replaced in Hg.
    destruct (decide (tablename m = tablename m')) as [Ht|Ht].
    + apply (tablename_inj _ _ Hm Hm') in Ht as <-.
      rewrite lookup_insert in Hg. destruct (decide (u = id')) as [<-|Hne].
      * injection Hg as <-. by left.
      * right. apply lookup_delete_Some in Hg as [Hne' Hg]. by split.
    + right. split; [exact Hg|]. intros ->. by destruct Ht.
  - intros t id' r0 Hg Hne. rewrite get_table_replaced.
    destruct (decide (tablename m = t)) as [<-|Ht]; [|exact Hg].
    specialize (Hne eq_refl).
    rewrite lookup_insert_ne.
    + by rewrite lookup_delete_ne.
    + intros <-. rewrite lookup_delete_ne in Hfresh by done. by rewrite Hfresh in Hg.
Qed.

Lemma update_keyed m s env id kw s' r :
  m ∈ metadata -> keyed s -> update m s env id kw = inr (s', r) -> keyed s'.
Proof.
  intros Hm HK Hupd.
  destruct (update_inr _ _ _ _ _ _ _ Hupd) as (old & Hold & _).
  destruct (update_rows m s env id kw s' r old Hm HK Hold Hupd) as (u & Hu & _ & Hrow & _).
  intros m' id' r0 Hm' Hg.
  destruct (Hrow m' id' r0 Hm' Hg) as [(-> & -> & ->)|[Hg' _]]; [exact Hu|by eapply HK].
Qed.

Lemma update_typed m s env id kw s' r :
  m ∈ metadata -> keyed s -> typed s -> update m s env id kw = inr (s', r) -> typed s'.
Proof.
  intros Hm HK HT Hupd.
  destruct (update_inr _ _ _ _ _ _ _ Hupd) as (old & Hold & _).
  destruct (update_rows m s env id kw s' r old Hm HK Hold Hupd) as (u & Hu & _ & Hrow & _).
  destruct (update_checked _ _ _ _ _ _ _ _ Hold Hupd) as (_ & Ety & Enn & _).
  intros m' id' r0 n c Hm' Hg Hc.
  destruct (Hrow m' id' r0 Hm' Hg) as [(-> & -> & ->)|[Hg' _]]; [|by eapply HT].
  destruct (update_cell_cases _ _ _ _ _ _ _ _ _ _ Hold Hupd Hc) as [Hw|Hsame].
  - apply column_In in Hc. split.
    + by eapply check_types_ok.
    + by eapply check_not_null_ok.
  - rewrite Hsame. by eapply HT.
Qed.

Lemma update_unique m s env id kw s' r :
  m ∈ metadata -> keyed s -> unique_columns s ->
  update m s env id kw = inr (s', r) -> unique_columns s'.
Proof.
  intros Hm HK HU Hupd.
  destruct (update_inr _ _ _ _ _ _ _ Hupd) as (old & Hold & _).
  destruct (update_rows m s env id kw s' r old Hm HK Hold Hupd) as (u & Hu & _ & Hrow & _).
  destruct (update_checked _ _ _ _ _ _ _ _ Hold Hupd) as (_ & _ & _ & Eun & _).
  assert (Hnew : forall id2 r2 n c, get m s id2 = Some r2 -> id2 <> id ->
            column m n = Some c -> (col_primary_key c || col_unique c) = true ->
            value_eqb (cell r2 n) (cell r n) = false).
  { intros id2 r2 n c H2 Hne Hc Hpu.
    destruct (update_cell_cases _ _ _ _ _ _ _ _ _ _ Hold Hupd Hc) as [Hw|Hsame].
    - eapply (check_unique_ok _ _ _ _ n c id2 r2 Eun); try done.
      + by apply column_In.
      + by rewrite lookup_delete_ne.
    - rewrite Hsame.
      destruct (value_eqb (cell r2 n) (cell old n)) eqn:Heq; [exfalso|reflexivity].
      apply Hne. by eapply (HU m id2 id r2 old n c). }
  intros m' id1 id2 r1 r2 n c Hm' H1 H2 Hc Hpu Heq.
  destruct (Hrow m' id1 r1 Hm' H1) as [(-> & -> & ->)|[H1' N1]];
    destruct (Hrow _ id2 r2 Hm' H2) as [(E & -> & ->)|[H2' N2]]; try reflexivity.
  - exfalso. pose proof (Hnew id2 r2 n c H2' (N2 eq_refl) Hc Hpu) as Hne.
    by rewrite value_eqb_sym, Heq in Hne.
  - exfalso. subst m'. pose proof (Hnew id1 r1 n c H1' (N1 eq_refl) Hc Hpu) as Hne.
    by rewrite Heq in Hne.
  - by eapply HU.
Qed.

Lemma update_references m s env id kw s' r :
  m ∈ metadata -> keyed s -> references_resolve s ->
  update m s env id kw = inr (s', r) -> references_resolve s'.
Proof.
  intros Hm HK HR Hupd.
  destruct (update_inr _ _ _ _ _ _ _ Hupd) as (old & Hold & _).
  destruct (update_rows m s env id kw s' r old Hm HK Hold Hupd)
    as (u & Hu & Hnew & Hrow & Hkeep).
  destruct (update_checked _ _ _ _ _ _ _ _ Hold Hupd) as (_ & _ & _ & _ & Efk & Ere).
  destruct (primary_key_column m Hm) as [_ Hid].
  pose proof (proj1 (identity_id m _ _ Hm) (HK m id old Hm Hold)) as Ho.
  pose proof (proj1 (identity_id m _ _ Hm) Hu) as Hr.
  intros m' id' r0 n c fk Hm' Hg Hc Hfk Hnn.
  destruct (foreign_key_target m' n c fk Hm' (column_In _ _ _ Hc) Hfk)
    as (m'' & Hm'' & Ht & Hself & Hcol & _).
  destruct (Hrow m' id' r0 Hm' Hg) as [(-> & -> & ->)|[Hg' Hne]].
  - (* the new row: its targets are in other tables *)
    assert (Hs : exists id'' r', get_table s (fk_table fk) !! id'' = Some r' /\
                   value_eqb (cell r' (fk_column fk)) (cell r n) = true).
    { destruct (update_cell_cases _ _ _ _ _ _ _ _ _ _ Hold Hupd Hc) as [Hw|Hsame].
      - apply column_In in Hc. by eapply check_foreign_keys_ok.
      - rewrite Hsame in *. by eapply (HR m id old). }
    destruct Hs as (id'' & r' & Hr' & Heq). exists id'', r'. split; [|exact Heq].
    apply Hkeep; [exact Hr'|]. intros E. exfalso. apply Hself. by rewrite Ht.
  - (* an old row: its target may be the row that was replaced *)
    destruct (HR m' id' r0 n c fk Hm' Hg' Hc Hfk Hnn) as (id'' & r' & Hr' & Heq).
    destruct (decide (fk_table fk = tablename m /\ id'' = id)) as [[Et ->]|Hother].
    + rewrite Et in Hr'. unfold get in Hold. rewrite Hold in Hr'. injection Hr' as <-.
      rewrite Hcol in Heq.
      assert (Hsame : u = id).
      { destruct (decide (u = id)) as [E|Hne']; [exact E|exfalso].
        pose proof (first_error_None_inv _ _ ("id", _) Ere (column_In _ _ _ Hid)) as Hchk.
        cbn [fst snd] in Hchk. rewrite Ho, Hr in Hchk. cbn [value_eqb] in Hchk.
        rewrite (proj2 (N.eqb_neq id u)) in Hchk by done. cbn [negb andb] in Hchk.
        rewrite (referencing_hit s (tablename m) "id" (VUuid id) m' n c fk id' r0) in Hchk;
          try done.
        - by apply column_In.
        - by rewrite value_eqb_sym, <- Ho. }
      subst u. exists id, r. rewrite Et. split; [exact Hnew|].
      by rewrite Hcol, Hr, <- Ho.
    + exists id'', r'. split; [|exact Heq]. apply Hkeep; [exact Hr'|].
      intros E Eid. apply Hother. by split.
Qed.

(** X8.  UPDATE keeps the store consistent, in the same sense. *)
Theorem update_keeps_integrity m s env id kw s' r :
  m ∈ metadata -> consistent s -> update m s env id kw = inr (s', r) -> consistent s'.
Proof.
  intros Hm [HK HT HU HR] Hupd. split.
  - by eapply update_keyed.
  - by eapply update_typed.
  - by eapply update_unique.
  - by eapply update_references.
Qed.

(** X9.  Every store built from the empty database by successful inserts
    and updates is consistent. *)
Theorem reachable_is_consistent s : reachable s -> consistent s.
Proof.
  induction 1 as [|m s env kw s' r _ [HK HT HU HR] Hm Hins
                  |m s env id kw s' r _ [HK HT HU HR] Hm Hupd].
  - apply consistent_empty.
  - split; [by eapply insert_keyed|by eapply insert_typed
           |by eapply insert_unique|by eapply insert_references].
  - split; [by eapply update_keyed|by eapply update_typed
           |by eapply update_unique|by eapply update_references].
Qed.

End IntegrityPreserved.

Section Refusals.
Import Models Session.

Lemma first_error_image {A : Type} (chk : A -> option db_error) l e :
  first_error chk l = Some e -> exists x, x ∈ l /\ chk x = Some e.
Proof.
  induction l as [|a l IH]; [discriminate|]. cbn.
  destruct (chk a) as [ea|] eqn:Ha.
  - intros [= ->]. exists a. split; [left|done].
  - intros (x & Hx & Hc)%IH. exists x. split; [by right|done].
Qed.

Lemma check_types_error written m r e :
  check_types written m r = Some e -> exists n, e = DataError n.
Proof.
  intros ([n c] & _ & H)%first_error_image. cbn [fst snd] in H.
  destruct (_ && _); [|discriminate]. injection H as <-. eauto.
Qed.

Lemma check_not_null_error written m r e :
  check_not_null written m r = Some e -> exists n, e = NotNullViolation n.
Proof.
  intros ([n c] & _ & H)%first_error_image. cbn [fst snd] in H.
  destruct (_ && _); [|discriminate]. injection H as <-. eauto.
Qed.

Lemma check_unique_error written m r tb e :
  check_unique written m r tb = Some e -> exists n, e = UniqueViolation n.
Proof.
  intros ([n c] & _ & H)%first_error_image. cbn [fst snd] in H.
  destruct (_ && _); [|discriminate]. injection H as <-. eauto.
Qed.

Lemma check_foreign_keys_error written m r s e :
  check_foreign_keys written m r s = Some e -> exists n, e = ForeignKeyViolation n.
Proof.
  intros ([n c] & _ & H)%first_error_image. cbn [fst snd] in H.
  destruct (col_foreign_key c); [|discriminate].
  destruct (_ && _); [|discriminate]. injection H as <-. eauto.
Qed.


Lemma check_not_null_hit written m r n c :
  column m n = Some c -> written n c = true -> col_nullable c = false ->
  is_null (cell r n) = true ->
  exists n', check_not_null written m r = Some (NotNullViolation n').
Proof.
  intros Hc Hw Hn Hnull. unfold check_not_null.
  edestruct (first_error_hit
    (fun nc : string * Column =>
       if written nc.1 nc.2 && negb (col_nullable nc.2) && is_null (cell r nc.1)
       then Some (NotNullViolation nc.1) else None) (columns m) (n, c))
    as (y & e' & _ & Hy & ->).
  - by apply column_In.
  - cbn [fst snd]. by rewrite Hw, Hn, Hnull.
  - cbn [fst snd] in Hy. destruct (_ && _); [|discriminate]. injection Hy as <-. eauto.
Qed.

Lemma check_foreign_keys_hit written m r s n c fk :
  column m n = Some c -> written n c = true -> col_foreign_key c = Some fk ->
  is_null (cell r n) = false ->
  (forall id' r', get_table s (fk_table fk) !! id' = Some r' ->
     value_eqb (cell r' (fk_column fk)) (cell r n) = false) ->
  exists n', check_foreign_keys written m r s = Some (ForeignKeyViolation n').
Proof.
  intros Hc Hw Hfk Hnn Hno. unfold check_foreign_keys.
  edestruct (first_error_hit
    (fun nc : string * Column =>
       match col_foreign_key nc.2 with
       | Some fk =>
           if written nc.1 nc.2 && negb (is_null (cell r nc.1))
              && negb (existsb (fun r' => value_eqb (cell r' (fk_column fk)) (cell r nc.1))
                               (rows (get_table s (fk_table fk))))
           then Some (ForeignKeyViolation nc.1) else None
       | None => None
       end) (columns m) (n, c))
    as (y & e' & _ & Hy & ->).
  - by apply column_In.
  - cbn [fst snd]. rewrite Hfk, Hw, Hnn.
    destruct (existsb _ (rows _)) eqn:Hex; [exfalso|reflexivity].
    apply existsb_true_elem in Hex as (r' & [id' Hr']%rows_elem_inv & Heq).
    by rewrite (Hno id' r' Hr') in Heq.
  - cbn [fst snd] in Hy. destruct (col_foreign_key y.2); [|discriminate].
    destruct (_ && _); [|discriminate]. injection Hy as <-. eauto.
Qed.



(** X10.  A create that leaves out (or passes [None] for) a NOT NULL
    column without default is refused with a [ValidationError], whatever
    else it carries, and nothing is written. *)
Theorem missing_required_field m s env kw n c :
  column m n = Some c -> col_nullable c = false ->
  col_default c = None -> col_server_default c = None ->
  evaluates_none (col_type c) = false -> cell kw n = VNull ->
  Store.create m s env kw = (s, inl Store.ValidationError).
Proof.
  intros Hc Hn Hd Hsd Hev Hkw.
  assert (Hcell : cell (build (insert_value env kw) m) n = VNull).
  { rewrite (cell_build _ m n c Hc), insert_value_omitted by done.
    unfold insert_default. by rewrite Hd, Hsd. }
  destruct (check_not_null_hit every_column m (build (insert_value env kw) m) n c Hc
              eq_refl Hn) as [n' Hnn]; [by rewrite Hcell|].
  unfold Store.create, insert, ensure.
  destruct (valid_keywords m kw); [|reflexivity]. cbn [negb].
  destruct (check_types every_column m _) as [e|] eqn:Ety.
  - by apply check_types_error in Ety as [? ->].
  - by rewrite Hnn.
Qed.




(** X12.  A create whose foreign key names no stored row is refused and
    nothing is written; the refusal is a [ValidationError], or a
    [ConflictError] if the payload also repeats a unique value. *)
Theorem dangling_reference_rejected m s env kw n c fk v :
  column m n = Some c -> col_foreign_key c = Some fk ->
  kw !! n = Some v -> is_null v = false ->
  (forall id' r', get_table s (fk_table fk) !! id' = Some r' ->
     value_eqb (cell r' (fk_column fk)) v = false) ->
  Store.create m s env kw = (s, inl Store.ValidationError) \/
  Store.create m s env kw = (s, inl Store.ConflictError).
Proof.
  intros Hc Hfk Hkw Hv Hno.
  assert (Hcell : cell (build (insert_value env kw) m) n = v).
  { by rewrite (cell_build _ m n c Hc), (insert_value_given env kw n c v). }
  destruct (check_foreign_keys_hit every_column m (build (insert_value env kw) m) s n c fk
              Hc eq_refl Hfk) as [n' Hhit]; [by rewrite Hcell|by rewrite Hcell|].
  unfold Store.create, insert, ensure.
  destruct (valid_keywords m kw); [|by left]. cbn [negb].
  destruct (check_types every_column m _) as [e|] eqn:Ety.
  { apply check_types_error in Ety as [? ->]. by left. }
  destruct (check_not_null every_column m _) as [e|] eqn:Enn.
  { apply check_not_null_error in Enn as [? ->]. by left. }
  destruct (check_unique every_column m _ _) as [e|] eqn:Eun.
  { apply check_unique_error in Eun as [? ->]. by right. }
  rewrite Hhit. by left.
Qed.

(** X14.  In every model, a create that repeats a value of a primary-key
    or unique column held by a stored row is refused and nothing is
    written; the refusal is a [ConflictError] whenever the payload is
    otherwise well formed. *)
Theorem duplicate_unique_value m s env kw n c v id0 r0 :
  column m n = Some c -> (col_primary_key c || col_unique c) = true ->
  kw !! n = Some v -> is_null v = false ->
  Session.get m s id0 = Some r0 -> value_eqb (cell r0 n) v = true ->
  (exists err, Store.create m s env kw = (s, inl err)) /\
  (well_formed m env kw = true ->
   Store.create m s env kw = (s, inl Store.ConflictError)).
Proof.
  intros Hc Hu Hkw Hv Hget Heq.
  destruct (check_unique_hit every_column m (build (insert_value env kw) m)
              (get_table s (tablename m)) n c id0 r0 Hc eq_refl Hu Hget) as [n' Hhit].
  { by rewrite (cell_build _ m n c Hc), (insert_value_given env kw n c v). }
  unfold Store.create, well_formed, insert, ensure. rewrite Hhit.
  destruct (valid_keywords m kw); [|split; [eauto|discriminate]]. cbn [negb andb].
  destruct (check_types every_column m _); [split; [eauto|discriminate]|].
  destruct (check_not_null every_column m _); split; eauto; discriminate.
Qed.

(** X15.  An update cannot take a value of a primary-key or unique column
    that another stored row holds: it is refused with a [ConflictError],
    or with a [ValidationError] if the payload is malformed, and nothing
    is written. *)
Theorem update_to_taken_value m s env id kw old n c v id0 r0 :
  column m n = Some c -> (col_primary_key c || col_unique c) = true ->
  kw !! n = Some v -> is_null v = false ->
  Session.get m s id = Some old -> id0 <> id ->
  Session.get m s id0 = Some r0 -> value_eqb (cell r0 n) v = true ->
  Store.update m s env id kw = (s, inl Store.ConflictError) \/
  Store.update m s env id kw = (s, inl Store.ValidationError).
Proof.
  intros Hc Hu Hkw Hv Hold Hne Hget Heq.
  destruct (update_value_given env old kw n c v Hkw Hv) as [Hset Hval].
  destruct (check_unique_hit (set_clause env kw) m (build (update_value env old kw) m)
              (delete id (get_table s (tablename m))) n c id0 r0 Hc) as [n' Hhit].
  { unfold set_clause. by rewrite Hset. }
  { exact Hu. }
  { unfold get in Hget. by rewrite lookup_delete_ne. }
  { by rewrite (cell_build _ m n c Hc), Hval. }
  unfold Store.update, update, ensure. unfold get in Hold.
  destruct (valid_keywords m kw); [|by right]. cbn [negb]. rewrite Hold.
  destruct (check_types _ m _) as [e|] eqn:Ety.
  { apply check_types_error in Ety as [? ->]. by right. }
  destruct (check_not_null _ m _) as [e|] eqn:Enn.
  { apply check_not_null_error in Enn as [? ->]. by right. }
  rewrite Hhit. by left.
Qed.

End Refusals.

Section Acceptance.
Import Models Session Integrity.



(** X16.  A successful INSERT stores the new row under a key that was
    free, the UUID drawn by [uuid.uuid4] unless the caller gave an id; the
    row can be read back under that key, and every other row of every
    table is as it was. *)
Theorem insert_then_get m s env kw s' r :
  m ∈ metadata -> keyed s -> insert m s env kw = inr (s', r) ->
  exists u, cell r "id" = VUuid u /\
    (cell kw "id" = VNull -> u = uuid4 env) /\
    get m s u = None /\ get m s' u = Some r /\
    (forall m' id', tablename m' <> tablename m \/ id' <> u ->
       get m' s' id' = get m' s id').
Proof.
  intros Hm HK Hins.
  destruct (insert_inr _ _ _ _ _ _ Hins) as (_ & u & Hu & Hs').
  pose proof (insert_fresh m s env kw s' r u Hm HK Hins Hu) as Hfresh.
  destruct (primary_key_column m Hm) as [_ Hid].
  pose proof (proj1 (identity_id m _ _ Hm) Hu) as Hcell.
  exists u. split; [exact Hcell|]. split; [|split; [exact Hfresh|]].
  - intros Hkw. rewrite (insert_cell _ _ _ _ _ _ _ _ Hins Hid) in Hcell.
    rewrite insert_value_omitted in Hcell by done. by injection Hcell.
  - subst s'. split; [apply get_stored|].
    intros m' id' Hother. rewrite get_replaced.
    destruct (decide (tablename m = tablename m')) as [Ht|Ht]; [|reflexivity].
    destruct Hother as [Hne|Hne]; [by destruct Hne|].
    rewrite lookup_insert_ne by done. unfold get. by rewrite Ht.
Qed.

(** X17.  A successful UPDATE replaces the one row it names: the new row
    can be read back, under the same id unless the update assigns [id],
    and every other row of every table is as it was. *)
Theorem update_then_get m s env id kw s' r :
  m ∈ metadata -> keyed s -> update m s env id kw = inr (s', r) ->
  exists u, cell r "id" = VUuid u /\
    (kw !! "id" = None -> u = id) /\
    get m s' u = Some r /\
    (u <> id -> get m s' id = None) /\
    (forall m' id', tablename m' <> tablename m \/ (id' <> id /\ id' <> u) ->
       get m' s' id' = get m' s id').
Proof.
  intros Hm HK Hupd.
  destruct (update_inr _ _ _ _ _ _ _ Hupd) as (old & Hold & _ & u & Hu & Hs').
  destruct (primary_key_column m Hm) as [_ Hid].
  pose proof (proj1 (identity_id m _ _ Hm) Hu) as Hcell.
  pose proof (proj1 (identity_id m _ _ Hm) (HK m id old Hm Hold)) as Ho.
  exists u. split; [exact Hcell|]. split; [|subst s'; split; [apply get_stored|split]].
  - intros Hkw. rewrite (update_cell _ _ _ _ _ _ _ _ _ _ Hold Hupd Hid) in Hcell.
    rewrite update_value_frame in Hcell by done. rewrite Ho in Hcell. by injection Hcell.
  - intros Hne. rewrite get_replaced, decide_True by done.
    rewrite lookup_insert_ne by done. apply lookup_delete_eq.
  - intros m' id' Hother. rewrite get_replaced.
    destruct (decide (tablename m = tablename m')) as [Ht|Ht]; [|reflexivity].
    destruct Hother as [Hne|[Hne1 Hne2]]; [by destruct Hne|].
    rewrite lookup_insert_ne by done. rewrite lookup_delete_ne by done.
    unfold get. by rewrite Ht.
Qed.

(** X18.  In every model, a column declared with a constant [default]
    holds that constant after a create that leaves the attribute out (or
    passes [None]), and the given value after a create that gives one. *)
Theorem defaults_apply_when_omitted m s env kw s' r n c d :
  insert m s env kw = inr (s', r) -> column m n = Some c ->
  col_default c = Some (Const d) -> evaluates_none (col_type c) = false ->
  (cell kw n = VNull -> cell r n = d) /\
  (forall v, kw !! n = Some v -> is_null v = false -> cell r n = v).
Proof.
  intros Hins Hc Hd Hev. rewrite (insert_cell _ _ _ _ _ _ _ _ Hins Hc). split.
  - intros Hkw. rewrite insert_value_omitted by done. unfold insert_default. by rewrite Hd.
  - intros v Hkw Hv. by apply insert_value_given.
Qed.


Lemma build_ext (f g : string -> Column -> value) m :
  (forall n c, (n, c) ∈ columns m -> f n c = g n c) -> build f m = build g m.
Proof.
  unfold build. induction (columns m) as [|[k c] l IH]; [done|].
  intros H. cbn. rewrite (H k c) by left. f_equal. apply IH.
  intros n c' Hin. apply H. by right.
Qed.

(** X20.  An UPDATE is idempotent: once it has succeeded without moving
    the row to another id, the same update at the same clock reading
    succeeds again and changes nothing. *)
Theorem update_is_idempotent m s env id kw s' r :
  m ∈ metadata -> update m s env id kw = inr (s', r) -> identity m r = Some id ->
  update m s' env id kw = inr (s', r).
Proof.
  intros Hm Hupd Hu.
  destruct (update_inr _ _ _ _ _ _ _ Hupd) as (old & Hold & Hr & u & Hu' & Hs').
  rewrite Hu in Hu'. injection Hu' as <-.
  destruct (update_checked _ _ _ _ _ _ _ _ Hold Hupd) as (Hv & Ety & Enn & Eun & Efk & _).
  pose proof (metadata_columns_NoDup m Hm) as Hnd.
  set (tb := get_table s (tablename m)) in *.
  assert (Htb : get_table s' (tablename m) = <[id := r]> (delete id tb)).
  { subst s'. by rewrite get_table_replaced, decide_True. }
  assert (Hsame : build (update_value env r kw) m = r).
  { rewrite Hr at 2. apply build_ext. intros n c Hin.
    unfold update_value. destruct (set_value env kw n c) eqn:Hset; [reflexivity|].
    rewrite Hr. rewrite (cell_build _ m n c (In_column m n c Hnd Hin)).
    unfold update_value. by rewrite Hset. }
  assert (Efk' : check_foreign_keys (set_clause env kw) m r s' = None).
  { apply first_error_None. intros [n c] Hin. cbn [fst snd].
    pose proof (first_error_None_inv _ _ _ Efk Hin) as Hchk. cbn [fst snd] in Hchk.
    destruct (col_foreign_key c) as [fk|] eqn:Hfk; [|reflexivity].
    destruct (foreign_key_target m n c fk Hm Hin Hfk) as (m'' & _ & Ht & Hself & _).
    replace (get_table s' (fk_table fk)) with (get_table s (fk_table fk)); [exact Hchk|].
    subst s'. rewrite get_table_replaced, decide_False; [reflexivity|].
    intros E. apply Hself. by rewrite Ht. }
  assert (Ere' : check_referenced m s' r r = None).
  { apply first_error_None. intros [n c] Hin. cbn [fst snd].
    destruct (value_eqb (cell r n) (cell r n)) eqn:Heq; [reflexivity|]. cbn [negb andb].
    by rewrite (referencing_no_match _ _ _ _ (value_eqb_irrefl _ Heq)). }
  unfold update, ensure. rewrite Hv, Htb, lookup_insert_eq. cbn [negb].
  rewrite Hsame, delete_insert_eq, delete_delete_eq.
  rewrite Ety, Enn, Eun, Efk', Ere', Hu.
  do 2 f_equal. subst s'. by rewrite insert_insert_eq.
Qed.

End Acceptance.

(* ===================================================================== *)
(** ** The further properties at the sample clinic                        *)
(* ===================================================================== *)

Section MoreInstances.
Import Models Session Integrity Relationships Main Middleware.

Ltac run := vm_compute; reflexivity.
Ltac ran := apply outcome; run.


Lemma get_table_empty t (id : N) : get_table ∅ t !! id = None.
Proof. unfold get_table. rewrite lookup_empty. apply lookup_empty. Qed.

(** A row keeps its place when another one is inserted. *)
Lemma insert_get_other m s env kw s' r u id' r' :
  insert m s env kw = inr (s', r) -> identity m r = Some u -> id' <> u ->
  get m s id' = Some r' -> get m s' id' = Some r'.
Proof.
  intros (_ & u' & Hu' & ->)%insert_inr Hu Hne Hg.
  rewrite Hu in Hu'. injection Hu' as <-.
  rewrite get_replaced, decide_True by done. by rewrite lookup_insert_ne.
Qed.

Lemma sample_s1_consistent : consistent Sample.s1.
Proof.
  assert (Hins : insert Patient ∅ (mkEnv 1000 1) Sample.patient_kw
                 = inr (Sample.s1, Sample.patient_row)) by ran.
  assert (Hm : Patient ∈ metadata) by apply list_elem_of_here.
  destruct consistent_empty as [HK HT HU HR]. split.
  - by eapply insert_keyed.
  - by eapply insert_typed.
  - by eapply insert_unique.
  - by eapply insert_references.
Qed.

Lemma sample_patient_stored : get Patient Sample.s1 1 = Some Sample.patient_row.
Proof. apply (insert_get Patient ∅ (mkEnv 1000 1) Sample.patient_kw); [ran|run]. Qed.

(** X1 on a request with id "req-42". *)
Lemma log_requests_response_witness :
  payload Cases.logged.2 = payload Cases.ok_response /\
  response_header "X-Request-ID" Cases.logged.2 = Some "req-42" /\
  response_header "Content-Type" Cases.logged.2 = Some "application/json".
Proof.
  destruct (log_requests_response Cases.str_sample Cases.round_sample Cases.conn
              10.5%float 10.75%float Cases.call_next) as (H1 & H2 & _ & _ & H5).
  split; [exact H1|]. split; [exact H2|].
  unfold Cases.logged. rewrite (H5 "Content-Type").
  - reflexivity.
  - intros H. vm_compute in H. discriminate H.
  - intros H. vm_compute in H. discriminate H.
Defined.

(** X4 for the two environments that matter. *)
Lemma docs_only_outside_production_witness :
  docs_url "production" = None /\ redoc_url "production" = None.
Proof.
  destruct (docs_only_outside_production "production" 0%float) as (H1 & H2 & _).
  split; [apply H1|apply H2]; reflexivity.
Defined.

(** X5 for the [provider_id] of an appointment. *)
Lemma schema_is_closed_witness :
  exists m' c', table_of "providers" = Some m' /\ m' ∈ metadata /\ m' <> Appointment /\
    column m' "id" = Some c' /\ col_primary_key c' = true /\
    sqltype_eqb (UUID true) (col_type c') = true.
Proof.
  destruct schema_is_closed as (_ & _ & H).
  apply (H Appointment "provider_id" (ColumnFK (UUID true) "providers" "id" [nullable false])
           (mkForeignKey "providers" "id")).
  - apply list_elem_of_further, list_elem_of_further, list_elem_of_here.
  - reflexivity.
  - reflexivity.
Defined.

(** X6 for [Provider.medications]. *)
Lemma relationships_pair_up_witness :
  exists k', class_of "Medication" = Some k' /\ k' ∈ classes /\
    assoc_get "prescriber" (relationships k')
      = Some (mkRelationship "Provider" "medications") /\
    xorb (references Provider (model k')) (references (model k') Provider) = true.
Proof.
  apply (relationships_pair_up
           (mkMapped "Provider" Provider
              [("appointments", mkRelationship "Appointment" "provider");
               ("medications", mkRelationship "Medication" "prescriber");
               ("messages", mkRelationship "Message" "provider")])
           "medications" (mkRelationship "Medication" "prescriber")).
  - apply list_elem_of_further, list_elem_of_here.
  - apply list_elem_of_further, list_elem_of_here.
Defined.

(** X7: the clinic with its first patient. *)
Lemma insert_keeps_integrity_witness : consistent Sample.s1.
Proof.
  apply (insert_keeps_integrity Patient ∅ (mkEnv 1000 1) Sample.patient_kw
           Sample.s1 Sample.patient_row).
  - apply list_elem_of_here.
  - apply consistent_empty.
  - ran.
Defined.

(** X8: patient 1 gets a phone number. *)
Lemma update_keeps_integrity_witness : consistent Sample.s1_phone.
Proof.
  apply (update_keeps_integrity Patient Sample.s1 (mkEnv 2000 0) 1 Sample.phone_kw
           Sample.s1_phone Sample.phone_row).
  - apply list_elem_of_here.
  - apply sample_s1_consistent.
  - ran.
Defined.

(** X9: the same store, as reached from the empty database. *)
Lemma reachable_is_consistent_witness : consistent Sample.s1_phone.
Proof.
  apply reachable_is_consistent.
  apply (reachable_update Patient Sample.s1 (mkEnv 2000 0) 1 Sample.phone_kw
           Sample.s1_phone Sample.phone_row); [|apply list_elem_of_here|ran].
  apply (reachable_insert Patient ∅ (mkEnv 1000 1) Sample.patient_kw
           Sample.s1 Sample.patient_row); [|apply list_elem_of_here|ran].
  apply reachable_empty.
Defined.

(** X10: a patient without an email. *)
Lemma missing_required_field_witness :
  Store.create Patient ∅ (mkEnv 1000 1) Cases.no_email_kw = (∅, inl Store.ValidationError).
Proof.
  apply (missing_required_field Patient ∅ (mkEnv 1000 1) Cases.no_email_kw "email"
           (Column_ (String_ 255) [unique true; nullable false; index true])); run.
Defined.


(** X12: an appointment for a patient the empty database does not hold. *)
Lemma dangling_reference_rejected_witness :
  Store.create Appointment ∅ (mkEnv 1002 3) Sample.appointment_kw
  = (∅, inl Store.ValidationError) \/
  Store.create Appointment ∅ (mkEnv 1002 3) Sample.appointment_kw
  = (∅, inl Store.ConflictError).
Proof.
  apply (dangling_reference_rejected Appointment ∅ (mkEnv 1002 3) Sample.appointment_kw
           "patient_id" (ColumnFK (UUID true) "patients" "id" [nullable false])
           (mkForeignKey "patients" "id") (VUuid 1)).
  - reflexivity.
  - reflexivity.
  - run.
  - reflexivity.
  - intros id' r' H. by rewrite get_table_empty in H.
Defined.

(** X14: a second provider with the email of provider 2. *)
Lemma duplicate_unique_value_witness :
  Store.create Provider Sample.s2 (mkEnv 2000 9) Sample.provider_kw
  = (Sample.s2, inl Store.ConflictError).
Proof.
  refine (proj2 (duplicate_unique_value Provider Sample.s2 (mkEnv 2000 9)
            Sample.provider_kw "email"
            (Column_ (String_ 255) [unique true; nullable false]) (VStr "b@x.com")
            2 Cases.provider_row _ _ _ _ _ _) _).
  - reflexivity.
  - reflexivity.
  - run.
  - reflexivity.
  - apply (insert_get Provider Sample.s1 (mkEnv 1001 2) Sample.provider_kw); [ran|run].
  - run.
  - run.
Defined.

(** X15: patient 7 asks for the email of patient 1. *)
Lemma update_to_taken_value_witness :
  Store.update Patient Cases.s1_two (mkEnv 2000 0) 7 Cases.take_email_kw
  = (Cases.s1_two, inl Store.ConflictError) \/
  Store.update Patient Cases.s1_two (mkEnv 2000 0) 7 Cases.take_email_kw
  = (Cases.s1_two, inl Store.ValidationError).
Proof.
  apply (update_to_taken_value Patient Cases.s1_two (mkEnv 2000 0) 7 Cases.take_email_kw
           Cases.patient7_row "email"
           (Column_ (String_ 255) [unique true; nullable false; index true])
           (VStr "a@x.com") 1 Sample.patient_row).
  - reflexivity.
  - reflexivity.
  - run.
  - reflexivity.
  - apply (insert_get Patient Sample.s1 (mkEnv 1500 7) Cases.patient7_kw); [ran|run].
  - discriminate.
  - apply (insert_get_other Patient Sample.s1 (mkEnv 1500 7) Cases.patient7_kw
             Cases.s1_two Cases.patient7_row 7); [ran|run|discriminate|].
    apply sample_patient_stored.
  - run.
Defined.

(** X16: the first patient of the clinic. *)
Lemma insert_then_get_witness :
  exists u, cell Sample.patient_row "id" = VUuid u /\
    (cell Sample.patient_kw "id" = VNull -> u = 1%N) /\
    get Patient ∅ u = None /\ get Patient Sample.s1 u = Some Sample.patient_row /\
    (forall m' id', tablename m' <> tablename Patient \/ id' <> u ->
       get m' Sample.s1 id' = get m' ∅ id').
Proof.
  apply (insert_then_get Patient ∅ (mkEnv 1000 1) Sample.patient_kw
           Sample.s1 Sample.patient_row).
  - apply list_elem_of_here.
  - apply consistent_empty.
  - ran.
Defined.

(** X17: patient 1 gets a phone number. *)
Lemma update_then_get_witness :
  exists u, cell Sample.phone_row "id" = VUuid u /\
    (Sample.phone_kw !! "id" = None -> u = 1%N) /\
    get Patient Sample.s1_phone u = Some Sample.phone_row /\
    (u <> 1%N -> get Patient Sample.s1_phone 1 = None) /\
    (forall m' id', tablename m' <> tablename Patient \/ (id' <> 1%N /\ id' <> u) ->
       get m' Sample.s1_phone id' = get m' Sample.s1 id').
Proof.
  apply (update_then_get Patient Sample.s1 (mkEnv 2000 0) 1 Sample.phone_kw
           Sample.s1_phone Sample.phone_row).
  - apply list_elem_of_here.
  - apply sample_s1_consistent.
  - ran.
Defined.

(** X18: a medication created without status and refill count. *)
Lemma defaults_apply_when_omitted_witness :
  cell Cases.medication_row "status" = VStr "active".
Proof.
  refine (proj1 (defaults_apply_when_omitted Medication Sample.s2 (mkEnv 1006 8)
            Cases.medication_kw Cases.s2_medication Cases.medication_row "status"
            (Column_ (String_ 20) [default (Const (VStr "active"))]) (VStr "active")
            _ _ _ _) _).
  - ran.
  - reflexivity.
  - reflexivity.
  - reflexivity.
  - run.
Defined.


(** X20: giving patient 1 the same phone number again. *)
Lemma update_is_idempotent_witness :
  update Patient Sample.s1_phone (mkEnv 2000 0) 1 Sample.phone_kw
  = inr (Sample.s1_phone, Sample.phone_row).
Proof.
  apply (update_is_idempotent Patient Sample.s1 (mkEnv 2000 0) 1 Sample.phone_kw).
  - apply list_elem_of_here.
  - ran.
  - run.
Defined.

End MoreInstances.

